(** * Air-quality index and forecast engine (python-service)

    A shallow embedding of
    [src/air_quality/air_quality_calculator.py] and
    [src/air_quality/forecast_service.py], and the properties of the
    specification stated and settled over it.

    Conventions of the embedding.
    - A Python dictionary [Dict[str, Any]] is a [gmap string pyval]; an
      argument that may also be [None] is an [option] of it.
    - Python numbers (int and float alike) are exact rationals [Q]; the
      decimal literals of the source denote their decimal value.  NaN and
      the infinities have no counterpart.  Values the code produces with
      [int(...)] or from integer arithmetic only are [Z].
    - An exception is a [Raise] in the [result] monad; [try/except
      Exception] is a match on it.
    - [datetime.now()] reads a clock that is threaded through the forecast
      functions; a calendar day is its proleptic ordinal ([date.toordinal]).
    - The built-in [hash] on strings is seeded per process; it is a
      parameter of the forecast functions. *)

From Stdlib Require Import ZArith QArith Qround Qminmax Lqa Lia Sorted.
From stdpp Require Import gmap strings pretty.

Local Open Scope Z_scope.

(** ** Python values, exceptions and the built-ins the code uses *)

Module Py.

Inductive pyval : Type :=
| PNone
| PNum (q : Q)
| PStr (s : string).

Inductive exn : Type :=
| TypeError
| ValueError
| ZeroDivisionError
| IndexError.

Inductive result (A : Type) : Type :=
| Ok (a : A)
| Raise (e : exn).

Arguments Ok {A} a.
Arguments Raise {A} e.

Definition bind {A B : Type} (c : result A) (k : A -> result B) : result B :=
  match c with
  | Ok a => k a
  | Raise e => Raise e
  end.

Definition Qltb (x y : Q) : bool := negb (Qle_bool y x).
Definition Qleb (x y : Q) : bool := Qle_bool x y.

(** [bool(v)]: [None], zero and the empty string are falsy. *)
Definition truthy (v : pyval) : bool :=
  match v with
  | PNone => false
  | PNum q => negb (Qeq_bool q 0)
  | PStr s => negb (String.eqb s "")
  end.

(** [bool(d)] for an argument that is a dictionary or [None]. *)
Definition dict_truthy (d : option (gmap string pyval)) : bool :=
  match d with
  | None => false
  | Some m => negb (bool_decide (m = ∅))
  end.

(** [d.get(k)] and [d.get(k, dflt)]. *)
Definition get (d : gmap string pyval) (k : string) : pyval :=
  default PNone (d !! k).

Definition get_default (d : gmap string pyval) (k : string) (dflt : pyval) : pyval :=
  default dflt (d !! k).

(** [v > c] and [v < c] against a numeric constant: ordering a string or
    [None] with a number raises [TypeError]. *)
Definition gt (v : pyval) (c : Q) : result bool :=
  match v with
  | PNum q => Ok (Qltb c q)
  | _ => Raise TypeError
  end.

Definition lt (v : pyval) (c : Q) : result bool :=
  match v with
  | PNum q => Ok (Qltb q c)
  | _ => Raise TypeError
  end.

(** [v / c], [v * c], [v + c] and [v - c] with a number [c]. *)
Definition truediv (v : pyval) (c : Q) : result Q :=
  match v with
  | PNum q => if Qeq_bool c 0 then Raise ZeroDivisionError else Ok (q / c)%Q
  | _ => Raise TypeError
  end.

Definition mul (v : pyval) (c : Q) : result Q :=
  match v with
  | PNum q => Ok (q * c)%Q
  | _ => Raise TypeError
  end.

Definition add (v : pyval) (c : Q) : result Q :=
  match v with
  | PNum q => Ok (q + c)%Q
  | _ => Raise TypeError
  end.

Definition sub (v : pyval) (c : Q) : result Q :=
  match v with
  | PNum q => Ok (q - c)%Q
  | _ => Raise TypeError
  end.

(** Two-argument [max(a, b)] and [min(a, b)]: the first argument is kept
    unless the second is strictly beyond it. *)
Definition max (a b : Q) : Q := if Qltb a b then b else a.
Definition min (a b : Q) : Q := if Qltb b a then b else a.

(** [round(x)] to an integer: to nearest, ties to the even neighbour. *)
Definition round (x : Q) : Z :=
  let f := Qfloor x in
  match (x - inject_Z f ?= 1 # 2)%Q with
  | Lt => f
  | Gt => f + 1
  | Eq => if Z.even f then f else f + 1
  end.

(** [max(xs)] over a sequence of integers; empty raises [ValueError]. *)
Definition max_of (xs : list Z) : result Z :=
  match xs with
  | [] => Raise ValueError
  | x :: rest => Ok (fold_left Z.max rest x)
  end.

(** [str(n)] of an integer: its decimal numeral. *)
Definition str (n : Z) : string := pretty n.

(** [xs[i]] for a non-negative index; out of range raises [IndexError]. *)
Definition index {A : Type} (xs : list A) (i : Z) : result A :=
  match xs !! Z.to_nat i with
  | Some x => Ok x
  | None => Raise IndexError
  end.

(** [date.fromordinal(n).month]: the month of the calendar day with
    proleptic Gregorian ordinal [n] (day 1 is 0001-01-01), by the usual
    era / day-of-era decomposition with years starting in March. *)
Definition month_of_ordinal (n : Z) : Z :=
  let z := n + 305 in
  let era := z / 146097 in
  let doe := z - era * 146097 in
  let yoe := (doe - doe / 1460 + doe / 36524 - doe / 146096) / 365 in
  let doy := doe - (365 * yoe + yoe / 4 - yoe / 100) in
  let mp := (5 * doy + 2) / 153 in
  if mp <? 10 then mp + 3 else mp - 9.

End Py.

Import Py.

Notation "'do' x <- c ; k" := (Py.bind c (fun x => k))
  (at level 10, x name, c at level 100, k at level 200).

Abbreviation dict := (gmap string pyval).

(** ** air_quality_calculator.py *)

Module AirQualityCalculator.

(** A tuple [(c_low, c_high, aqi_low, aqi_high)] of a breakpoint table. *)
Definition bracket (c_low c_high : Q) (aqi_low aqi_high : Z) : Q * Q * Z * Z :=
  (c_low, c_high, aqi_low, aqi_high).

(** [self.aqi_breakpoints] *)
Definition aqi_breakpoints : gmap string (list (Q * Q * Z * Z)) :=
  list_to_map
    [ ("pm25", [ bracket 0 12 0 50;
                 bracket 12.1 35.4 51 100;
                 bracket 35.5 55.4 101 150;
                 bracket 55.5 150.4 151 200;
                 bracket 150.5 250.4 201 300;
                 bracket 250.5 500.4 301 500 ]);
      ("pm10", [ bracket 0 54 0 50;
                 bracket 55 154 51 100;
                 bracket 155 254 101 150;
                 bracket 255 354 151 200;
                 bracket 355 424 201 300;
                 bracket 425 604 301 500 ]);
      ("no2",  [ bracket 0 53 0 50;
                 bracket 54 100 51 100;
                 bracket 101 360 101 150;
                 bracket 361 649 151 200;
                 bracket 650 1249 201 300;
                 bracket 1250 2049 301 500 ]);
      ("o3",   [ bracket 0 54 0 50;
                 bracket 55 70 51 100;
                 bracket 71 85 101 150;
                 bracket 86 105 151 200;
                 bracket 106 200 201 300;
                 bracket 201 500 301 500 ]) ].

(** The [for ... in enumerate(breakpoints)] loop of
    [_calculate_pollutant_aqi] with its fall-through [return 500]. *)
Fixpoint breakpoint_loop (breakpoints : list (Q * Q * Z * Z)) (concentration : Q) : Z :=
  match breakpoints with
  | [] => 500
  | (c_low, c_high, aqi_low, aqi_high) :: rest =>
      if Qleb c_low concentration && Qleb concentration c_high then
        let aqi := ((inject_Z (aqi_high - aqi_low) / (c_high - c_low))
                    * (concentration - c_low) + inject_Z aqi_low)%Q in
        Py.round aqi
      else breakpoint_loop rest concentration
  end.

Definition _calculate_pollutant_aqi (pollutant : string) (concentration : Q) : Z :=
  match aqi_breakpoints !! pollutant with
  | None => 3
  | Some breakpoints => breakpoint_loop breakpoints concentration
  end.

Definition _extract_pollutants (tempo_data ground_data : option dict) : dict :=
  let pollutants : dict := ∅ in
  let pollutants :=
    match tempo_data with
    | Some tempo =>
        if dict_truthy tempo_data then
          let pollutants := <["no2" := Py.get tempo "no2"]> pollutants in
          let pollutants := <["o3" := Py.get tempo "o3"]> pollutants in
          <["hcho" := Py.get tempo "hcho"]> pollutants
        else pollutants
    | None => pollutants
    end in
  match ground_data with
  | Some ground =>
      if dict_truthy ground_data then
        let pollutants := <["pm25" := Py.get ground "pm25"]> pollutants in
        let pollutants := <["pm10" := Py.get ground "pm10"]> pollutants in
        let pollutants :=
          if negb (truthy (Py.get pollutants "no2"))
          then <["no2" := Py.get ground "no2"]> pollutants else pollutants in
        if negb (truthy (Py.get pollutants "o3"))
        then <["o3" := Py.get ground "o3"]> pollutants else pollutants
      else pollutants
  | None => pollutants
  end.

Definition _apply_weather_corrections (aqi : Z) (weather_data : option dict) : result Z :=
  match weather_data with
  | None => Ok aqi
  | Some weather =>
      if negb (dict_truthy weather_data) then Ok aqi else
      let corrected_aqi := aqi in
      let wind_speed := get_default weather "wind_speed" (PNum 5) in
      do windy <- Py.gt wind_speed 10;
      do corrected_aqi <-
        (if windy then Ok (corrected_aqi - 10)
         else do calm <- Py.lt wind_speed 2;
              Ok (if calm then corrected_aqi + 15 else corrected_aqi));
      let temperature := get_default weather "temperature" (PNum 20) in
      do hot <- Py.gt temperature 30;
      do corrected_aqi <-
        (if hot then Ok (corrected_aqi + 10)
         else do cold <- Py.lt temperature 5;
              Ok (if cold then corrected_aqi - 5 else corrected_aqi));
      let humidity := get_default weather "humidity" (PNum 50) in
      do humid <- Py.gt humidity 80;
      do corrected_aqi <-
        (if humid then Ok (corrected_aqi + 5)
         else do dry <- Py.lt humidity 30;
              Ok (if dry then corrected_aqi - 5 else corrected_aqi));
      let pressure := get_default weather "pressure" (PNum 1013) in
      do low <- Py.lt pressure 1000;
      let corrected_aqi := if low then corrected_aqi + 10 else corrected_aqi in
      Ok (Z.max 0 (Z.min 500 corrected_aqi))
  end.

Definition _scale_aqi_to_5 (aqi : Z) : Z :=
  if aqi <=? 50 then 1
  else if aqi <=? 100 then 2
  else if aqi <=? 150 then 3
  else if aqi <=? 200 then 4
  else 5.

Definition source_of (data : option dict) : list pyval :=
  match data with
  | Some d =>
      if dict_truthy data && truthy (Py.get d "source")
      then [Py.get d "source"] else []
  | None => []
  end.

Definition _get_data_sources (tempo_data ground_data : option dict) : list pyval :=
  let sources := source_of tempo_data ++ source_of ground_data in
  match sources with
  | [] => [PStr "mock_data"]
  | _ => sources
  end.

Definition _calculate_weather_factor (weather_data : option dict) : result Q :=
  match weather_data with
  | None => Ok 0.5%Q
  | Some weather =>
      if negb (dict_truthy weather_data) then Ok 0.5%Q else
      let factor := 0.5%Q in
      let wind_speed := get_default weather "wind_speed" (PNum 5) in
      do windy <- Py.gt wind_speed 10;
      do factor <-
        (if windy then Ok (factor - 0.2)%Q
         else do calm <- Py.lt wind_speed 2;
              Ok (if calm then factor + 0.2 else factor)%Q);
      let temperature := get_default weather "temperature" (PNum 20) in
      do hot <- Py.gt temperature 30;
      do factor <-
        (if hot then Ok (factor + 0.1)%Q
         else do cold <- Py.lt temperature 5;
              Ok (if cold then factor - 0.1 else factor)%Q);
      let humidity := get_default weather "humidity" (PNum 50) in
      do humid <- Py.gt humidity 80;
      do factor <-
        (if humid then Ok (factor + 0.1)%Q
         else do dry <- Py.lt humidity 30;
              Ok (if dry then factor - 0.1 else factor)%Q);
      Ok (Py.max 0 (Py.min 1 factor))
  end.

(** The dictionary [calculate_aqi] returns, without its ['timestamp']. *)
Record aqi_data : Type := {
  aqi : Z;
  no2 : pyval;
  o3 : pyval;
  pm25 : pyval;
  pm10 : pyval;
  sources : list pyval;
  individual_aqi : gmap string Z;
  weather_factor : Q
}.

Definition _get_default_aqi : aqi_data :=
  {| aqi := 3;
     no2 := PNone;
     o3 := PNone;
     pm25 := PNone;
     pm10 := PNone;
     sources := [PStr "default"];
     individual_aqi := ∅;
     weather_factor := 0.5%Q |}.

(** One iteration of the loop over [pollutants.items()]: the guard
    [concentration is not None and concentration > 0], then the entry. *)
Definition aqi_values_step (pollutant : string) (concentration : pyval)
    (acc : result (gmap string Z)) : result (gmap string Z) :=
  do aqi_values <- acc;
  match concentration with
  | PNone => Ok aqi_values
  | PNum q =>
      if Qltb 0 q
      then Ok (<[pollutant := _calculate_pollutant_aqi pollutant q]> aqi_values)
      else Ok aqi_values
  | PStr _ => Raise TypeError
  end.

(** The body of the [try] block of [calculate_aqi].  The loop over
    [pollutants.items()] is a fold in the map's own order: a step adds its
    own entry or raises [TypeError], so the order leaves no trace in the
    outcome. *)
Definition calculate_aqi_try (tempo_data ground_data weather_data : option dict)
    : result aqi_data :=
  let pollutants := _extract_pollutants tempo_data ground_data in
  do aqi_values <- map_fold aqi_values_step (Ok ∅) pollutants;
  do overall_aqi <-
    (if negb (bool_decide (aqi_values = ∅))
     then max_of (snd <$> map_to_list aqi_values) else Ok 3);
  do weather_corrected_aqi <- _apply_weather_corrections overall_aqi weather_data;
  let scaled_aqi := _scale_aqi_to_5 weather_corrected_aqi in
  let sources := _get_data_sources tempo_data ground_data in
  do weather_factor <- _calculate_weather_factor weather_data;
  Ok {| aqi := scaled_aqi;
        no2 := Py.get pollutants "no2";
        o3 := Py.get pollutants "o3";
        pm25 := Py.get pollutants "pm25";
        pm10 := Py.get pollutants "pm10";
        sources := sources;
        individual_aqi := aqi_values;
        weather_factor := weather_factor |}.

(** [calculate_aqi]: the [try] block, and [_get_default_aqi] on any
    exception. *)
Definition calculate_aqi (tempo_data ground_data weather_data : option dict) : aqi_data :=
  match calculate_aqi_try tempo_data ground_data weather_data with
  | Ok data => data
  | Raise _ => _get_default_aqi
  end.

End AirQualityCalculator.

(** ** Code that reads the clock

    A computation that may call [datetime.now()] and may raise.  The state
    is the number of readings taken so far; the reading itself comes from
    the clock the functions are given.  A raised exception keeps the
    readings already taken. *)

Module Clock.

Definition io (A : Type) : Type := nat -> result A * nat.

Definition ret {A : Type} (a : A) : io A := fun n => (Ok a, n).

Definition bind {A B : Type} (m : io A) (k : A -> io B) : io B :=
  fun n =>
    match m n with
    | (Ok a, n') => k a n'
    | (Raise e, n') => (Raise e, n')
    end.

Definition lift {A : Type} (r : result A) : io A := fun n => (r, n).

(** The calendar day of [datetime.now()] on a clock whose [k]-th reading
    falls on day [clock k]. *)
Definition today (clock : nat -> Z) : io Z := fun n => (Ok (clock n), S n).

(** [try: body except Exception: handler] *)
Definition try_except {A : Type} (body handler : io A) : io A :=
  fun n =>
    match body n with
    | (Ok a, n') => (Ok a, n')
    | (Raise _, n') => handler n'
    end.

(** [for x in xs: out.append(f x)] *)
Fixpoint for_each {A B : Type} (f : A -> io B) (xs : list A) : io (list B) :=
  match xs with
  | [] => ret []
  | x :: rest =>
      bind (f x) (fun y => bind (for_each f rest) (fun ys => ret (y :: ys)))
  end.

End Clock.

Notation "'do!' x <- c ; k" := (Clock.bind c (fun x => k))
  (at level 10, x name, c at level 100, k at level 200).

(** ** forecast_service.py *)

Module ForecastService.

(** The dictionary of one day of the forecast.  ['date'] is the calendar
    day that [strftime('%Y-%m-%d')] prints; a level is [None] where
    [pollutant_forecasts.get] finds no entry. *)
Record day_forecast : Type := {
  date : Z;
  aqi_value : Q;
  no2_level : option Q;
  o3_level : option Q;
  pm25_level : option Q;
  weather : dict;
  confidence : Q;
  trend : string
}.

Section Forecast.

(** The process's string hash, and the calendar days its clock shows at
    the successive readings.  The [latitude] and [longitude] arguments are
    passed along by the source and never read; they are left out. *)
Variable hash : string -> Z.
Variable clock : nat -> Z.

(** [_get_current_data]; the ['timestamp'] entry is left out, its reading
    of the clock is not. *)
Definition _get_current_data : Clock.io dict :=
  do! _ <- Clock.today clock;
  Clock.ret (list_to_map [ ("aqi", PNum 3); ("no2", PNum 25);
                           ("o3", PNum 60); ("pm25", PNum 20) ]).

Definition _get_weather_conditions (days_ahead : Z) : result string :=
  let conditions := ["clear"; "partly cloudy"; "cloudy"; "overcast"; "rainy"] in
  Py.index conditions (hash (str days_ahead) mod Z.of_nat (length conditions)).

Definition _get_weather_forecast (days_ahead : Z) : result dict :=
  do conditions <- _get_weather_conditions days_ahead;
  Ok (list_to_map
        [ ("temperature", PNum (inject_Z (20 + hash (str days_ahead) mod 15 - 7)));
          ("humidity", PNum (inject_Z (50 + hash (str (days_ahead + 1)) mod 30 - 15)));
          ("wind_speed", PNum (inject_Z (5 + hash (str (days_ahead + 2)) mod 10 - 5)));
          ("pressure", PNum (inject_Z (1013 + hash (str (days_ahead + 3)) mod 20 - 10)));
          ("conditions", PStr conditions) ]).

Definition _calculate_weather_impact (weather_forecast : dict) : result Z :=
  let impact := 0 in
  let temp := get_default weather_forecast "temperature" (PNum 20) in
  do hot <- Py.gt temp 30;
  do impact <-
    (if hot then Ok (impact + 1)
     else do cold <- Py.lt temp 5;
          Ok (if cold then impact - 1 else impact));
  let wind_speed := get_default weather_forecast "wind_speed" (PNum 5) in
  do windy <- Py.gt wind_speed 10;
  do impact <-
    (if windy then Ok (impact - 1)
     else do calm <- Py.lt wind_speed 2;
          Ok (if calm then impact + 1 else impact));
  let humidity := get_default weather_forecast "humidity" (PNum 50) in
  do humid <- Py.gt humidity 80;
  do impact <-
    (if humid then Ok (impact + 1)
     else do dry <- Py.lt humidity 30;
          Ok (if dry then impact - 1 else impact));
  Ok (Z.max (-2) (Z.min 2 impact)).

Definition _calculate_seasonal_factor (days_ahead : Z) : Clock.io Z :=
  do! now <- Clock.today clock;
  let month := month_of_ordinal (now + days_ahead) in
  Clock.ret
    (if bool_decide (month ∈ [6; 7; 8]) then 1
     else if bool_decide (month ∈ [12; 1; 2]) then 1
     else -1).

(** The [random_variation] of [_calculate_forecast_aqi]:
    [(hash(str(days_ahead)) % 3) - 1]. *)
Definition random_variation (days_ahead : Z) : Z :=
  hash (str days_ahead) mod 3 - 1.

Definition _calculate_forecast_aqi (current_data weather_forecast : dict)
    (days_ahead : Z) : Clock.io Q :=
  let base_aqi := get_default current_data "aqi" (PNum 3) in
  do! weather_factor <- Clock.lift (_calculate_weather_impact weather_forecast);
  do! seasonal_factor <- _calculate_seasonal_factor days_ahead;
  let random_variation := random_variation days_ahead in
  do! with_weather <- Clock.lift (Py.add base_aqi (inject_Z weather_factor));
  let forecast_aqi :=
    (with_weather + inject_Z seasonal_factor + inject_Z random_variation)%Q in
  Clock.ret (Py.max 1 (Py.min 5 forecast_aqi)).

Definition _generate_pollutant_forecasts (current_data weather_forecast : dict)
    (days_ahead : Z) : result (gmap string Q) :=
  let forecasts : gmap string Q := ∅ in
  let base_no2 := get_default current_data "no2" (PNum 25) in
  let base_o3 := get_default current_data "o3" (PNum 60) in
  let base_pm25 := get_default current_data "pm25" (PNum 20) in
  do temp_factor <- Py.truediv (get_default weather_forecast "temperature" (PNum 20)) 20;
  do wind_factor <- Py.truediv (get_default weather_forecast "wind_speed" (PNum 5)) 5;
  do humidity_factor <- Py.truediv (get_default weather_forecast "humidity" (PNum 50)) 50;
  do no2_temp <- Py.mul base_no2 (1 + (temp_factor - 1) * 0.2);
  let forecasts := <["no2" := (no2_temp * (1 - (wind_factor - 1) * 0.1))%Q]> forecasts in
  do o3_temp <- Py.mul base_o3 (1 + (temp_factor - 1) * 0.3);
  let forecasts := <["o3" := (o3_temp * (1 + (humidity_factor - 1) * 0.1))%Q]> forecasts in
  do pm25_wind <- Py.mul base_pm25 (1 - (wind_factor - 1) * 0.2);
  let forecasts := <["pm25" := (pm25_wind * (1 + (humidity_factor - 1) * 0.1))%Q]> forecasts in
  Ok forecasts.

Definition _calculate_confidence (days_ahead : Z) : Q :=
  let base_confidence := 0.9%Q in
  let decay_rate := 0.1%Q in
  let confidence := (base_confidence - inject_Z (days_ahead - 1) * decay_rate)%Q in
  Py.max 0.3 (Py.min 1.0 confidence).

Definition _calculate_trend (current_data : dict) (forecast_aqi : Q) : result string :=
  let current_aqi := get_default current_data "aqi" (PNum 3) in
  do above <- Py.add current_aqi 0.5;
  if Qltb above forecast_aqi then Ok "worsening"
  else
    do below <- Py.sub current_aqi 0.5;
    if Qltb forecast_aqi below then Ok "improving" else Ok "stable".

Definition _get_default_day_forecast (days_ahead : Z) : Clock.io day_forecast :=
  do! now <- Clock.today clock;
  Clock.ret
    {| date := now + days_ahead;
       aqi_value := 3;
       no2_level := Some 25%Q;
       o3_level := Some 60%Q;
       pm25_level := Some 20%Q;
       weather := list_to_map
                    [ ("temperature", PNum 20); ("humidity", PNum 50);
                      ("wind_speed", PNum 5); ("pressure", PNum 1013);
                      ("conditions", PStr "partly cloudy") ];
       confidence := 0.5;
       trend := "stable" |}.

Definition _generate_day_forecast (days_ahead : Z) (current_data : dict)
    : Clock.io day_forecast :=
  Clock.try_except
    (do! weather_forecast <- Clock.lift (_get_weather_forecast days_ahead);
     do! forecast_aqi <- _calculate_forecast_aqi current_data weather_forecast days_ahead;
     do! pollutant_forecasts <-
       Clock.lift (_generate_pollutant_forecasts current_data weather_forecast days_ahead);
     do! now <- Clock.today clock;
     do! trend <- Clock.lift (_calculate_trend current_data forecast_aqi);
     Clock.ret
       {| date := now + days_ahead;
          aqi_value := forecast_aqi;
          no2_level := pollutant_forecasts !! "no2";
          o3_level := pollutant_forecasts !! "o3";
          pm25_level := pollutant_forecasts !! "pm25";
          weather := weather_forecast;
          confidence := _calculate_confidence days_ahead;
          trend := trend |})
    (_get_default_day_forecast days_ahead).

Definition _get_default_forecast : Clock.io (list day_forecast) :=
  Clock.for_each _get_default_day_forecast (seqZ 1 7).

Definition generate_forecast (current_data : option dict) : Clock.io (list day_forecast) :=
  Clock.try_except
    (do! current_data <-
       (match current_data with
        | Some data =>
            if dict_truthy current_data then Clock.ret data else _get_current_data
        | None => _get_current_data
        end);
     Clock.for_each (fun i => _generate_day_forecast i current_data) (seqZ 1 7))
    _get_default_forecast.

End Forecast.

End ForecastService.

(** ** The notions the properties are stated with

    The specification's own wording where it is compared with the code,
    and the predicates the statements below use. *)

Module Spec.

Import AirQualityCalculator.

(** The value a source bundle reports for a pollutant: [None] when the
    bundle is missing or has no entry for it. *)
Definition bundle_value (bundle : option dict) (pollutant : string) : pyval :=
  match bundle with
  | Some d => Py.get d pollutant
  | None => PNone
  end.

(** "Prefer primary source's value; if absent (falsy/zero/missing), fall
    back to secondary." *)
Definition prefer_primary (primary secondary : pyval) : pyval :=
  if truthy primary then primary else secondary.

(** The "documented default result" path of [computeIndex]: the call
    fails internally and answers with index 3, no sub-indices, source
    ["default"] and weather factor 0.5. *)
Definition returns_default_result (tempo_data ground_data weather_data : option dict)
    : Prop :=
  (exists e, calculate_aqi_try tempo_data ground_data weather_data = Raise e) /\
  let data := calculate_aqi tempo_data ground_data weather_data in
  aqi data = 3 /\
  individual_aqi data = ∅ /\
  sources data = [PStr "default"] /\
  (weather_factor data == 0.5)%Q.

(** "max(0.3, min(1.0, 0.9 - (d-1)*0.1))" *)
Definition confidence_formula (d : Z) : Q :=
  Qmax 0.3 (Qmin 1.0 (0.9 - inject_Z (d - 1) * 0.1)).

(** A concentration lies in a bracket. *)
Definition in_bracket (c : Q) (b : Q * Q * Z * Z) : Prop :=
  let '(c_low, c_high, _, _) := b in (c_low <= c <= c_high)%Q.

(** The upper concentration bound of a table's top bracket. *)
Definition top_bound (table : list (Q * Q * Z * Z)) : Q :=
  match last table with
  | Some (_, c_high, _, _) => c_high
  | None => 0
  end.

(** A concentration that no bracket of the pollutant's table contains
    although it does not exceed the top bracket's upper bound. *)
Definition in_gap (pollutant : string) (c : Q) : Prop :=
  exists table,
    aqi_breakpoints !! pollutant = Some table /\
    (0 <= c <= top_bound table)%Q /\
    Forall (fun b => ~ in_bracket c b) table.

(** Both endpoints of a bracket are scored with the bracket's endpoint
    indices. *)
Definition endpoints_exact (pollutant : string) (b : Q * Q * Z * Z) : Prop :=
  let '(c_low, c_high, aqi_low, aqi_high) := b in
  _calculate_pollutant_aqi pollutant c_low = aqi_low /\
  _calculate_pollutant_aqi pollutant c_high = aqi_high.

(** A table is well formed when every bracket is a proper interval with
    ordered indices and lies strictly below every later bracket. *)
Definition bracket_proper (b : Q * Q * Z * Z) : Prop :=
  let '(c_low, c_high, aqi_low, aqi_high) := b in
  (c_low < c_high)%Q /\ aqi_low <= aqi_high.

Definition bracket_below (b1 b2 : Q * Q * Z * Z) : Prop :=
  let '(_, c_high1, _, _) := b1 in
  let '(c_low2, _, _, _) := b2 in
  (c_high1 < c_low2)%Q.

(** The bundles of the end-to-end example: NO2 from the satellite source,
    PM2.5 from the ground source, no O3, weather at its defaults. *)
Definition example_tempo : option dict := Some {[ "no2" := PNum 53 ]}.
Definition example_ground : option dict := Some {[ "pm25" := PNum 35.4 ]}.
Definition example_weather : option dict :=
  Some (list_to_map [ ("wind_speed", PNum 5); ("temperature", PNum 20);
                      ("humidity", PNum 50); ("pressure", PNum 1013) ]).

(** The dates of a forecast, in order. *)
Definition dates (forecast : list ForecastService.day_forecast) : list Z :=
  ForecastService.date <$> forecast.

(** "Strictly ascending": every date is before all later ones. *)
Definition strictly_ascending (ds : list Z) : Prop := StronglySorted Z.lt ds.

(** "Consecutive calendar dates starting at tomorrow" for a generation
    day [today]. *)
Definition consecutive_from_tomorrow (today : Z) (ds : list Z) : Prop :=
  ds = seqZ (today + 1) (Z.of_nat (length ds)).

(** The readings [n], ..., [n' - 1] of the clock all fall on [today]. *)
Definition same_day (clock : nat -> Z) (n n' : nat) (today : Z) : Prop :=
  forall k, (n <= k < n')%nat -> clock k = today.

(** The day the clock shows never goes backwards. *)
Definition never_backwards (clock : nat -> Z) : Prop :=
  forall j k, (j <= k)%nat -> clock j <= clock k.

(** What a run of the forecast, started after [n] readings, delivers. *)
Definition seven_days (clock : nat -> Z) (n : nat)
    (run : result (list ForecastService.day_forecast) * nat) : Prop :=
  exists forecast n',
    run = (Ok forecast, n') /\
    length forecast = 7%nat /\
    (never_backwards clock -> strictly_ascending (dates forecast)) /\
    (forall today, same_day clock n n' today ->
                   consecutive_from_tomorrow today (dates forecast)).

(** [reads clock n xs ds n']: the forecasts [ds] answer the day offsets
    [xs] one by one, each dated by a reading of its own, taken in turn
    between the [n]-th reading and the [n']-th. *)
Inductive reads (clock : nat -> Z)
    : nat -> list Z -> list ForecastService.day_forecast -> nat -> Prop :=
| reads_nil (n : nat) : reads clock n [] [] n
| reads_cons (n k n1 n2 : nat) (x : Z) (xs : list Z)
    (d : ForecastService.day_forecast) (ds : list ForecastService.day_forecast) :
    (n <= k < n1)%nat ->
    ForecastService.date d = clock k + x ->
    reads clock n1 xs ds n2 ->
    reads clock n (x :: xs) (d :: ds) n2.

(** A clock that passes midnight after its fourth reading
    (2026-11-03 is day 739923). *)
Definition midnight_clock (n : nat) : Z :=
  if (n <? 4)%nat then 739923 else 739924.

End Spec.

(** ** Further notions

    Predicates and helper functions for the properties of the remaining
    code. *)

Module Notions.

Import AirQualityCalculator.

(** The score the loop of [_calculate_pollutant_aqi] gives inside a
    bracket: the rounded linear interpolation. *)
Definition bracket_score (b : Q * Q * Z * Z) (c : Q) : Z :=
  let '(c_low, c_high, aqi_low, aqi_high) := b in
  Py.round ((inject_Z (aqi_high - aqi_low) / (c_high - c_low))
            * (c - c_low) + inject_Z aqi_low)%Q.

(** A bracket lies before another: lower concentrations, lower indices. *)
Definition bracket_before (b1 b2 : Q * Q * Z * Z) : Prop :=
  let '(_, c_high1, _, aqi_high1) := b1 in
  let '(c_low2, _, aqi_low2, _) := b2 in
  (c_high1 < c_low2)%Q /\ aqi_high1 < aqi_low2.

(** A bracket's indices lie on the 0-500 scale. *)
Definition bracket_on_scale (b : Q * Q * Z * Z) : Prop :=
  let '(_, _, aqi_low, aqi_high) := b in 0 <= aqi_low /\ aqi_high <= 500.

(** A weather field is a number within [lo, hi], or is missing. *)
Definition field_within (weather : dict) (k : string) (lo hi : Q) : Prop :=
  match weather !! k with
  | None => True
  | Some (PNum q) => (lo <= q <= hi)%Q
  | Some _ => False
  end.

(** A weather field is a number, or is missing. *)
Definition field_numeric (d : dict) (k : string) : Prop :=
  match d !! k with
  | None | Some (PNum _) => True
  | Some _ => False
  end.

(** A weather field is a number of at least [lo], or is missing. *)
Definition field_at_least (weather : dict) (k : string) (lo : Q) : Prop :=
  match weather !! k with
  | None => True
  | Some (PNum q) => (lo <= q)%Q
  | Some _ => False
  end.

(** Weather that crosses none of the thresholds of the corrections. *)
Definition neutral_weather (weather : dict) : Prop :=
  field_within weather "wind_speed" 2 10 /\
  field_within weather "temperature" 5 30 /\
  field_within weather "humidity" 30 80 /\
  field_at_least weather "pressure" 1000.

(** Two outcomes agree on raising, and their values are in order. *)
Definition ordered_outcomes (r1 r2 : result Z) : Prop :=
  match r1, r2 with
  | Ok a, Ok b => a <= b
  | Raise _, Raise _ => True
  | _, _ => False
  end.

(** The sub-index the loop of [calculate_aqi] records for a merged
    concentration: none for [None], for zero and for negative numbers. *)
Definition scored (pollutant : string) (concentration : pyval) : option Z :=
  match concentration with
  | PNum q => if Qltb 0 q then Some (_calculate_pollutant_aqi pollutant q) else None
  | _ => None
  end.

(** A value that is a string. *)
Definition is_text (v : pyval) : Prop :=
  match v with
  | PStr _ => True
  | _ => False
  end.

(** A value that cannot be ordered against a number: [None] or a string. *)
Definition not_a_number (v : pyval) : Prop :=
  match v with
  | PNum _ => False
  | _ => True
  end.

(** The four weather fields the calculator reads, with their defaults. *)
Definition weather_fields : list (string * Q) :=
  [ ("wind_speed", 5%Q); ("temperature", 20%Q); ("humidity", 50%Q);
    ("pressure", 1013%Q) ].

(** Some weather field that is present holds no number. *)
Definition weather_ill_typed (weather_data : option dict) : Prop :=
  match weather_data with
  | Some weather =>
      dict_truthy weather_data = true /\
      Exists (fun '(k, dflt) => not_a_number (get_default weather k (PNum dflt)))
        weather_fields
  | None => False
  end.

(** Weather that is missing, empty, or crosses no threshold. *)
Definition calm_or_absent (weather_data : option dict) : Prop :=
  match weather_data with
  | Some weather => neutral_weather weather
  | None => True
  end.

(** The field of a mock weather forecast is the integer [z]. *)
Definition integer_field (weather : dict) (k : string) (lo hi : Z) : Prop :=
  exists z, weather !! k = Some (PNum (inject_Z z)) /\ lo <= z <= hi.

(** The values the forecast reads from the current data are numbers
    where they are present. *)
Definition numeric_current (current_data : dict) : Prop :=
  field_numeric current_data "aqi" /\ field_numeric current_data "no2" /\
  field_numeric current_data "o3" /\ field_numeric current_data "pm25".

(** The fields the forecast reads from the current data, with the
    defaults of the [get] calls. *)
Definition current_fields : list (string * Q) :=
  [ ("aqi", 3%Q); ("no2", 25%Q); ("o3", 60%Q); ("pm25", 20%Q) ].

(** Some field of the current data is present without being a number. *)
Definition current_ill_typed (current_data : dict) : Prop :=
  Exists (fun '(k, dflt) => not_a_number (get_default current_data k (PNum dflt)))
    current_fields.

(** A day-forecast carries the fixed default values. *)
Definition is_default_day (d : ForecastService.day_forecast) : Prop :=
  ForecastService.aqi_value d = 3%Q /\
  ForecastService.no2_level d = Some 25%Q /\
  ForecastService.o3_level d = Some 60%Q /\
  ForecastService.pm25_level d = Some 20%Q /\
  ForecastService.confidence d = 0.5%Q /\
  ForecastService.trend d = "stable".

(** The projected level of a pollutant equals its baseline level. *)
Definition level_unchanged (current_data : dict) (forecasts : gmap string Q)
    (k : string) (dflt : Q) : Prop :=
  exists base level,
    get_default current_data k (PNum dflt) = PNum base /\
    forecasts !! k = Some level /\ (level == base)%Q.

End Notions.

(** ** main.py: the index and its forecast

    The part of [get_air_quality] that follows the three fetches: the
    index is calculated and handed to the forecast as its current data. *)

Module Main.

Import AirQualityCalculator ForecastService.

(** The dictionary [calculate_aqi] returns, as the forecast sees it.  The
    entries ['timestamp'], ['sources'] and ['individual_aqi'] are left
    out: the forecast never reads them. *)
Definition current_data_of (data : aqi_data) : dict :=
  list_to_map
    [ ("aqi", PNum (inject_Z (aqi data)));
      ("no2", no2 data);
      ("o3", o3 data);
      ("pm25", pm25 data);
      ("pm10", pm10 data);
      ("weather_factor", PNum (weather_factor data)) ].

(** [calculate_aqi(...)] followed by [generate_forecast(..., air_quality_data)]. *)
Definition air_quality_forecast (hash : string -> Z) (clock : nat -> Z)
    (tempo_data ground_data weather_data : option dict)
    : Clock.io (list day_forecast) :=
  let air_quality_data := calculate_aqi tempo_data ground_data weather_data in
  generate_forecast hash clock (Some (current_data_of air_quality_data)).

End Main.


(** ** Further built-ins *)

From Stdlib Require Import Qabs.

Local Open Scope Z_scope.

Module Builtins.





(** [sum(values)]: the numbers added up from 0, [TypeError] on anything
    that is not a number. *)
Fixpoint sum (values : list pyval) : result Q :=
  match values with
  | [] => Ok 0%Q
  | v :: rest =>
      match v, sum rest with
      | PNum q, Ok s => Ok (q + s)%Q
      | PNum _, Raise e => Raise e
      | _, _ => Raise TypeError
      end
  end.

End Builtins.

(** ** tempo_client.py *)

Module TempoClient.


Section Client.

(** The process's string hash, the decimal text [str] gives a float, and
    the clock. *)
Variable hash : string -> Z.
Variable float_str : Q -> string.
Variable clock : nat -> Z.


(** [_get_mock_ground_data], likewise without its ['timestamp']. *)
Definition _get_mock_ground_data (latitude longitude : Q) : Clock.io dict :=
  do! _ <- Clock.today clock;
  Clock.ret
    (list_to_map
       [ ("pm25", PNum (inject_Z (15 + hash (float_str latitude) mod 20)));
         ("pm10", PNum (inject_Z (25 + hash (float_str longitude) mod 30)));
         ("no2", PNum (inject_Z (18 + hash (float_str (latitude + longitude)) mod 15)));
         ("o3", PNum (inject_Z (45 + hash (float_str (latitude * longitude)) mod 25)));
         ("source", PStr "GROUND_MOCK") ]).


Definition _generate_historical_variation (days_ago : Z) : Z :=
  let variation_range := Z.min 2 (days_ago / 3 + 1) in
  hash (str days_ago) mod (variation_range * 2 + 1) - variation_range.




End Client.

End TempoClient.


(** ** Properties of the index calculator *)

Import AirQualityCalculator ForecastService Spec.

Ltac simplify_lookups :=
  repeat (rewrite ?lookup_insert_eq, ?lookup_empty;
          rewrite ?lookup_insert_ne by done; simpl).

Lemma dict_truthy_false (d : option dict) :
  dict_truthy d = false -> d = None \/ d = Some ∅.
Proof.
  destruct d as [m|]; simpl; [|auto].
  case_bool_decide; [subst; auto | discriminate].
Qed.

Lemma dict_truthy_insert (k : string) (v : pyval) (m : dict) :
  dict_truthy (Some (<[k := v]> m)) = true.
Proof.
  simpl. case_bool_decide as H; [|reflexivity].
  exfalso. exact (insert_non_empty _ _ _ H).
Qed.

Lemma scale_aqi_to_5_range (aqi : Z) : 1 <= _scale_aqi_to_5 aqi <= 5.
Proof. unfold _scale_aqi_to_5. repeat case_match; lia. Qed.

(** C1, as stated, fails: with every input missing nothing raises, so the
    call answers on the computed path, with scaled index 1 (the overall
    default 3 scaled down) and source "mock_data", not with the default
    result. *)
Lemma calculate_aqi_all_absent_not_default :
  aqi (calculate_aqi None None None) = 1 /\
  sources (calculate_aqi None None None) = [PStr "mock_data"] /\
  ~ returns_default_result None None None.
Proof.
  split; [reflexivity | split; [reflexivity |]].
  intros [[e He] _]. vm_compute in He. discriminate.
Qed.

(** C1, amended: when both pollutant bundles and the weather are missing
    or empty, [calculate_aqi] raises nothing and returns on the computed
    path: no sub-indices, sources ["mock_data"], weather factor 0.5, and no
    pollutant concentration. *)
Theorem calculate_aqi_all_absent
    (tempo_data ground_data weather_data : option dict) :
  dict_truthy tempo_data = false ->
  dict_truthy ground_data = false ->
  dict_truthy weather_data = false ->
  exists data,
    calculate_aqi_try tempo_data ground_data weather_data = Ok data /\
    calculate_aqi tempo_data ground_data weather_data = data /\
    individual_aqi data = ∅ /\
    sources data = [PStr "mock_data"] /\
    (weather_factor data == 0.5)%Q /\
    no2 data = PNone /\ o3 data = PNone /\ pm25 data = PNone /\ pm10 data = PNone.
Proof.
  intros Ht Hg Hw.
  destruct (dict_truthy_false _ Ht) as [-> | ->],
           (dict_truthy_false _ Hg) as [-> | ->],
           (dict_truthy_false _ Hw) as [-> | ->];
    (eexists; split; [vm_compute; reflexivity |]);
    repeat split; reflexivity.
Qed.

Lemma calculate_aqi_all_absent_witness :
  exists data,
    calculate_aqi_try None (Some ∅) None = Ok data /\
    calculate_aqi None (Some ∅) None = data /\
    individual_aqi data = ∅ /\
    sources data = [PStr "mock_data"] /\
    (weather_factor data == 0.5)%Q /\
    no2 data = PNone /\ o3 data = PNone /\ pm25 data = PNone /\ pm10 data = PNone.
Proof.
  apply (calculate_aqi_all_absent None (Some ∅) None); reflexivity.
Defined.

(** [round] stays between integer bounds of its argument. *)
Lemma round_between (lo hi : Z) (x : Q) :
  (inject_Z lo <= x <= inject_Z hi)%Q -> lo <= Py.round x <= hi.
Proof.
  intros [Hlo Hhi]. unfold Py.round.
  pose proof (Qfloor_le x) as Hfl. pose proof (Qlt_floor x) as Hfu.
  set (f := Qfloor x) in *.
  assert (lo <= f).
  { apply Z.lt_succ_r. rewrite Zlt_Qlt. unfold Z.succ. lra. }
  assert (f <= hi) by (rewrite Zle_Qle; lra).
  destruct (Qcompare_spec (x - inject_Z f) (1 # 2)) as [He | Hl | Hg].
  - destruct (Z.even f); [lia |].
    assert (f < hi) by (rewrite Zlt_Qlt; lra). lia.
  - lia.
  - assert (f < hi) by (rewrite Zlt_Qlt; lra). lia.
Qed.

(** The interpolated value stays between the bracket's indices. *)
Lemma interpolation_between (c_low c_high c : Q) (aqi_low aqi_high : Z) :
  (c_low < c_high)%Q -> aqi_low <= aqi_high -> (c_low <= c <= c_high)%Q ->
  (inject_Z aqi_low
   <= inject_Z (aqi_high - aqi_low) / (c_high - c_low) * (c - c_low) + inject_Z aqi_low
   <= inject_Z aqi_high)%Q.
Proof.
  intros Hc Ha [Hl Hh].
  assert (Hspan : (0 <= inject_Z (aqi_high - aqi_low))%Q).
  { change 0%Q with (inject_Z 0). rewrite <- Zle_Qle. lia. }
  assert (Hk : (0 <= inject_Z (aqi_high - aqi_low) / (c_high - c_low))%Q).
  { apply Qle_shift_div_l; lra. }
  assert (Hfull : (inject_Z (aqi_high - aqi_low) / (c_high - c_low) * (c_high - c_low)
                   == inject_Z (aqi_high - aqi_low))%Q).
  { field. lra. }
  assert (Hdiff : (inject_Z (aqi_high - aqi_low) == inject_Z aqi_high - inject_Z aqi_low)%Q).
  { unfold Z.sub. rewrite inject_Z_plus, inject_Z_opp. ring. }
  set (k := (inject_Z (aqi_high - aqi_low) / (c_high - c_low))%Q) in *.
  assert (0 <= k * (c - c_low))%Q by (apply Qmult_le_0_compat; lra).
  assert (k * (c - c_low) <= k * (c_high - c_low))%Q.
  { rewrite (Qmult_comm k (c - c_low)), (Qmult_comm k (c_high - c_low)).
    apply Qmult_le_compat_r; lra. }
  lra.
Qed.

(** In a well-formed table the loop scores a concentration that lies in
    a bracket within that bracket's indices. *)
Lemma breakpoint_loop_in_bracket (table : list (Q * Q * Z * Z)) (c : Q)
    (b : Q * Q * Z * Z) :
  Forall bracket_proper table ->
  StronglySorted bracket_below table ->
  b ∈ table -> in_bracket c b ->
  let '(_, _, aqi_low, aqi_high) := b in
  aqi_low <= breakpoint_loop table c <= aqi_high.
Proof.
  intros Hproper Hsorted. revert b.
  induction table as [|[[[cl ch] al] ah] table IH]; intros b Hb Hin.
  - inversion Hb.
  - apply Forall_cons in Hproper as [[Hc Ha] Hproper].
    apply StronglySorted_inv in Hsorted as [Hsorted Hbelow].
    simpl. unfold Qleb.
    destruct (Qle_bool cl c) eqn:E1, (Qle_bool c ch) eqn:E2; simpl.
    + apply Qle_bool_iff in E1, E2.
      apply elem_of_cons in Hb as [-> | Hb].
      * apply round_between, interpolation_between; auto.
      * rewrite Forall_forall in Hbelow. specialize (Hbelow b Hb).
        destruct b as [[[cl' ch'] al'] ah']. simpl in Hbelow, Hin. lra.
    + apply elem_of_cons in Hb as [-> | Hb]; [| exact (IH Hproper Hsorted b Hb Hin)].
      simpl in Hin. destruct Hin as [_ Hin]. apply Qle_bool_iff in Hin. congruence.
    + apply elem_of_cons in Hb as [-> | Hb]; [| exact (IH Hproper Hsorted b Hb Hin)].
      simpl in Hin. destruct Hin as [Hin _]. apply Qle_bool_iff in Hin. congruence.
    + apply elem_of_cons in Hb as [-> | Hb]; [| exact (IH Hproper Hsorted b Hb Hin)].
      simpl in Hin. destruct Hin as [Hin _]. apply Qle_bool_iff in Hin. congruence.
Qed.

Lemma aqi_breakpoints_well_formed :
  map_Forall (fun _ table =>
                Forall bracket_proper table /\ StronglySorted bracket_below table)
    aqi_breakpoints.
Proof.
  apply map_Forall_to_list. vm_compute map_to_list.
  repeat first [constructor | done].
Qed.

(** The part of C2 that holds: a concentration inside a bracket gets a
    sub-index within that bracket's [aqi_low, aqi_high]. *)
Lemma calculate_pollutant_aqi_in_bracket (pollutant : string)
    (table : list (Q * Q * Z * Z)) (c : Q) (b : Q * Q * Z * Z) :
  aqi_breakpoints !! pollutant = Some table ->
  b ∈ table -> in_bracket c b ->
  let '(_, _, aqi_low, aqi_high) := b in
  aqi_low <= _calculate_pollutant_aqi pollutant c <= aqi_high.
Proof.
  intros Htable Hb Hin. unfold _calculate_pollutant_aqi. rewrite Htable.
  destruct (aqi_breakpoints_well_formed _ _ Htable).
  apply breakpoint_loop_in_bracket; assumption.
Qed.

(** C2: the tables leave gaps between consecutive brackets.  A
    concentration inside a gap is below the top bracket's upper bound, lies
    in no bracket, and is scored 500 by the fall-through meant for
    concentrations above the highest breakpoint. *)
Theorem calculate_pollutant_aqi_gap :
  (in_gap "no2" 53.5 /\ _calculate_pollutant_aqi "no2" 53.5 = 500) /\
  (in_gap "o3" 54.5 /\ _calculate_pollutant_aqi "o3" 54.5 = 500) /\
  (in_gap "pm25" 12.05 /\ _calculate_pollutant_aqi "pm25" 12.05 = 500) /\
  (in_gap "pm10" 54.5 /\ _calculate_pollutant_aqi "pm10" 54.5 = 500).
Proof.
  repeat split; try reflexivity;
    (eexists; split; [vm_compute; reflexivity |]; split;
     [ split; vm_compute; discriminate
     | repeat constructor; intros [H1 H2]; vm_compute in H1, H2; congruence ]).
Qed.

(** C3: on the bundle no2 = 53, pm25 = 35.4 (no o3) with weather at its
    defaults, the NO2 sub-index is 50 and the PM2.5 sub-index 100, the
    overall index is 100, the weather correction leaves 100 unchanged and
    the scaled index is 2; and in every table both endpoints of every
    bracket are scored with exactly the bracket's endpoint indices. *)
Theorem calculate_aqi_boundary_example :
  (exists data,
     calculate_aqi_try example_tempo example_ground example_weather = Ok data /\
     calculate_aqi example_tempo example_ground example_weather = data /\
     individual_aqi data = {[ "no2" := 50; "pm25" := 100 ]} /\
     max_of (snd <$> map_to_list (individual_aqi data)) = Ok 100 /\
     _apply_weather_corrections 100 example_weather = Ok 100 /\
     aqi data = 2) /\
  map_Forall (fun pollutant table => Forall (endpoints_exact pollutant) table)
    aqi_breakpoints.
Proof.
  split.
  - eexists. split; [vm_compute; reflexivity |].
    repeat split; vm_compute; reflexivity.
  - apply map_Forall_to_list.
    vm_compute map_to_list.
    repeat constructor.
Qed.

(** C4: whatever the bundles and the weather, the [aqi] field of the
    result is one of 1, 2, 3, 4, 5, on the computed path and on the default
    path. *)
Theorem calculate_aqi_scaled_index_range
    (tempo_data ground_data weather_data : option dict) :
  aqi (calculate_aqi tempo_data ground_data weather_data) ∈ [1; 2; 3; 4; 5].
Proof.
  assert (Hin : forall z, 1 <= z <= 5 -> z ∈ [1; 2; 3; 4; 5]).
  { intros z Hz. rewrite !elem_of_cons, elem_of_nil. lia. }
  unfold calculate_aqi.
  destruct (calculate_aqi_try tempo_data ground_data weather_data) as [data|e] eqn:Htry.
  - unfold calculate_aqi_try in Htry.
    repeat match type of Htry with
      | context [Py.bind ?c _] => destruct c; simpl in Htry; try discriminate
      end.
    injection Htry as <-. simpl. apply Hin, scale_aqi_to_5_range.
  - simpl. apply Hin. lia.
Qed.

(** C7, as stated, fails: a falsy but present primary NO2 (zero) with no
    ground bundle is kept, while the secondary value is absent. *)
Lemma extract_pollutants_zero_no2_without_ground :
  let tempo_data : option dict := Some {[ "no2" := PNum 0 ]} in
  Py.get (_extract_pollutants tempo_data None) "no2" = PNum 0 /\
  prefer_primary (bundle_value tempo_data "no2") (bundle_value None "no2") = PNone /\
  Py.get (_extract_pollutants tempo_data None) "no2"
  <> prefer_primary (bundle_value tempo_data "no2") (bundle_value None "no2").
Proof.
  repeat split; try reflexivity. vm_compute. discriminate.
Qed.

(** C7, amended: merged NO2 and O3 are the primary value when it is
    truthy; otherwise the secondary value if the ground bundle is
    non-empty, and the primary bundle's own value if the ground bundle is
    missing or empty.  PM2.5 and PM10 come from the ground bundle only and
    HCHO from the primary bundle only. *)
Theorem extract_pollutants_merge_policy (tempo_data ground_data : option dict) :
  let pollutants := _extract_pollutants tempo_data ground_data in
  let merged (pollutant : string) :=
    let primary := bundle_value tempo_data pollutant in
    let secondary := bundle_value ground_data pollutant in
    if dict_truthy ground_data then prefer_primary primary secondary else primary in
  Py.get pollutants "no2" = merged "no2" /\
  Py.get pollutants "o3" = merged "o3" /\
  Py.get pollutants "pm25" = bundle_value ground_data "pm25" /\
  Py.get pollutants "pm10" = bundle_value ground_data "pm10" /\
  Py.get pollutants "hcho" = bundle_value tempo_data "hcho".
Proof.
  unfold _extract_pollutants, prefer_primary, bundle_value, Py.get.
  destruct tempo_data as [tempo|], ground_data as [ground|]; simpl;
    repeat case_bool_decide; subst; simpl;
    repeat (simplify_lookups;
            match goal with
            | |- context [truthy (default PNone (?m !! ?k))] =>
                is_var m; destruct (truthy (default PNone (m !! k))) eqn:?
            end; simpl);
    simplify_lookups; done.
Qed.

Lemma Qltb_true (x y : Q) : (x < y)%Q -> Qltb x y = true.
Proof.
  intros H. unfold Qltb. destruct (Qle_bool y x) eqn:E; [|reflexivity].
  apply Qle_bool_iff in E. lra.
Qed.

Lemma Qltb_false (x y : Q) : (y <= x)%Q -> Qltb x y = false.
Proof.
  intros H. unfold Qltb. apply Qle_bool_iff in H. rewrite H. reflexivity.
Qed.

(** C8: for every base index and every fixed temperature, humidity and
    pressure (whatever the weather dictionary holds for them), the
    corrected index with a wind speed above 10 is at most the one with a
    wind speed in [2, 10], which is at most the one with a wind speed below
    2; if the fixed fields make the correction raise, it raises for all
    three wind speeds alike. *)
Theorem weather_corrections_antitone_in_wind
    (aqi : Z) (weather : dict) (strong moderate still : Q) :
  (10 < strong)%Q -> (2 <= moderate <= 10)%Q -> (still < 2)%Q ->
  let corrected wind :=
    _apply_weather_corrections aqi (Some (<["wind_speed" := PNum wind]> weather)) in
  match corrected strong, corrected moderate, corrected still with
  | Ok a, Ok b, Ok c => a <= b <= c
  | Raise _, Raise _, Raise _ => True
  | _, _, _ => False
  end.
Proof.
  intros Hs [Hm1 Hm2] Hl. cbv zeta.
  unfold _apply_weather_corrections.
  rewrite !dict_truthy_insert. cbn [negb].
  unfold get_default. simplify_lookups.
  rewrite (Qltb_true 10 strong), (Qltb_false 10 moderate), (Qltb_false moderate 2),
    (Qltb_false 10 still), (Qltb_true still 2) by lra.
  cbn [Py.bind].
  destruct (default (PNum 20) (weather !! "temperature")) as [|t|]; simpl; trivial.
  destruct (default (PNum 50) (weather !! "humidity")) as [|h|];
    destruct (Qltb 30 t), (Qltb t 5); simpl; trivial;
  (destruct (default (PNum 1013) (weather !! "pressure")) as [|p|];
    destruct (Qltb 80 h), (Qltb h 30); simpl; trivial;
    destruct (Qltb p 1000); lia).
Qed.

Lemma weather_corrections_antitone_in_wind_witness :
  match _apply_weather_corrections 100 (Some (<["wind_speed" := PNum 11]> ∅)),
        _apply_weather_corrections 100 (Some (<["wind_speed" := PNum 5]> ∅)),
        _apply_weather_corrections 100 (Some (<["wind_speed" := PNum 1]> ∅)) with
  | Ok a, Ok b, Ok c => a <= b <= c
  | Raise _, Raise _, Raise _ => True
  | _, _, _ => False
  end.
Proof.
  apply (weather_corrections_antitone_in_wind 100 ∅ 11 5 1); lra.
Defined.

(** ** Properties of the forecast generator *)

(** C6: for a day offset [d] in 1..7 the confidence is
    max(0.3, min(1.0, 0.9 - (d-1)*0.1)); it lies in [0.3, 1.0], strictly
    decreases from each day to the next, is 0.9 on day 1 and 0.3 on day 7. *)
Theorem calculate_confidence_decay (d : Z) :
  1 <= d <= 7 ->
  (_calculate_confidence d == confidence_formula d)%Q /\
  (0.3 <= _calculate_confidence d <= 1.0)%Q /\
  (d < 7 -> (_calculate_confidence (d + 1) < _calculate_confidence d)%Q) /\
  (_calculate_confidence 1 == 0.9)%Q /\
  (_calculate_confidence 7 == 0.3)%Q.
Proof.
  intros Hd.
  assert (d = 1 \/ d = 2 \/ d = 3 \/ d = 4 \/ d = 5 \/ d = 6 \/ d = 7) as Hc by lia.
  repeat destruct Hc as [-> | Hc]; try subst d;
    (split; [reflexivity |]; split; [split; discriminate |];
     split; [intros Hlt; try lia; reflexivity |]; split; reflexivity).
Qed.

Lemma calculate_confidence_decay_witness :
  (_calculate_confidence 3 == confidence_formula 3)%Q /\
  (0.3 <= _calculate_confidence 3 <= 1.0)%Q /\
  (3 < 7 -> (_calculate_confidence (3 + 1) < _calculate_confidence 3)%Q) /\
  (_calculate_confidence 1 == 0.9)%Q /\
  (_calculate_confidence 7 == 0.3)%Q.
Proof.
  apply (calculate_confidence_decay 3). lia.
Defined.

(** C9, as stated, fails: the term is computed from the process's string
    hash, so two runs whose hashes differ give different terms for the same
    day offset. *)
Lemma random_variation_depends_on_hash :
  random_variation (fun _ => 0) 1 = -1 /\
  random_variation (fun _ => 1) 1 = 0 /\
  ~ (forall (hash1 hash2 : string -> Z) (days_ahead : Z),
       random_variation hash1 days_ahead = random_variation hash2 days_ahead).
Proof.
  split; [reflexivity | split; [reflexivity |]].
  intros H. specialize (H (fun _ => 0) (fun _ => 1) 1). vm_compute in H. discriminate.
Qed.

(** C9, amended: the term is always one of -1, 0, 1, and it is a function
    of the hash value of the day offset's decimal string alone: two
    evaluations whose hashes agree on that string give the same term. *)
Theorem random_variation_range (hash1 hash2 : string -> Z) (days_ahead : Z) :
  hash1 (str days_ahead) = hash2 (str days_ahead) ->
  random_variation hash1 days_ahead ∈ [-1; 0; 1] /\
  random_variation hash1 days_ahead = random_variation hash2 days_ahead.
Proof.
  intros Heq. unfold random_variation. rewrite <- Heq. split; [|reflexivity].
  pose proof (Z.mod_pos_bound (hash1 (str days_ahead)) 3 ltac:(lia)).
  rewrite !elem_of_cons, elem_of_nil. lia.
Qed.

Lemma random_variation_range_witness :
  random_variation (fun _ => 7) 4 ∈ [-1; 0; 1] /\
  random_variation (fun _ => 7) 4 = random_variation (fun s => Z.of_nat (String.length s) + 6) 4.
Proof.
  apply (random_variation_range (fun _ => 7) (fun s => Z.of_nat (String.length s) + 6) 4).
  reflexivity.
Defined.

(** The term enters the projected index as the last summand before the
    clamp to [1, 5]. *)
Lemma forecast_aqi_uses_random_variation
    (hash : string -> Z) (clock : nat -> Z) (current_data weather_forecast : dict)
    (days_ahead : Z) (n : nat) (forecast_aqi : Q) (n' : nat) :
  _calculate_forecast_aqi hash clock current_data weather_forecast days_ahead n
    = (Ok forecast_aqi, n') ->
  exists base weather_factor seasonal_factor,
    get_default current_data "aqi" (PNum 3) = PNum base /\
    forecast_aqi =
      Py.max 1 (Py.min 5 (base + inject_Z weather_factor + inject_Z seasonal_factor
                          + inject_Z (random_variation hash days_ahead))%Q).
Proof.
  unfold _calculate_forecast_aqi, _calculate_seasonal_factor, Clock.bind, Clock.lift,
    Clock.today, Clock.ret.
  destruct (_calculate_weather_impact weather_forecast) as [wf|]; [|discriminate].
  destruct (get_default current_data "aqi" (PNum 3)) as [|base|]; simpl; try discriminate.
  intros [= <- <-]. eauto.
Qed.

(** C10: projected pollutant levels are not bounded below by zero: with a
    baseline pm25 of 20 and a forecast wind speed of 35 the projected pm25
    level is negative. *)
Theorem pollutant_forecast_pm25_negative :
  exists (current_data weather_forecast : dict) (days_ahead : Z)
         (base wind : Q) (forecasts : gmap string Q) (level : Q),
    current_data !! "pm25" = Some (PNum base) /\ (0 < base)%Q /\
    weather_forecast !! "wind_speed" = Some (PNum wind) /\ (30 < wind)%Q /\
    _generate_pollutant_forecasts current_data weather_forecast days_ahead = Ok forecasts /\
    forecasts !! "pm25" = Some level /\ (level < 0)%Q.
Proof.
  exists {[ "pm25" := PNum 20 ]}, {[ "wind_speed" := PNum 35 ]}, 1, 20%Q, 35%Q.
  eexists. eexists.
  split; [reflexivity |]. split; [reflexivity |].
  split; [reflexivity |]. split; [reflexivity |].
  split; [vm_compute; reflexivity |].
  split; [vm_compute; reflexivity | reflexivity].
Qed.

(** *** The dates of the forecast

    Every day-forecast is dated by a clock reading of its own.  A run is
    followed through the readings it takes. *)

Section ForecastDates.

Variable hash : string -> Z.
Variable clock : nat -> Z.

Lemma default_day_forecast_date (days_ahead : Z) (n : nat) :
  exists d,
    _get_default_day_forecast clock days_ahead n = (Ok d, S n) /\
    date d = clock n + days_ahead.
Proof. eexists. split; reflexivity. Qed.

Lemma generate_day_forecast_date (days_ahead : Z) (current_data : dict) (n : nat) :
  exists d k n',
    _generate_day_forecast hash clock days_ahead current_data n = (Ok d, n') /\
    (n <= k < n')%nat /\
    date d = clock k + days_ahead.
Proof.
  unfold _generate_day_forecast, Clock.try_except, _calculate_forecast_aqi,
    _calculate_seasonal_factor, _get_default_day_forecast,
    Clock.bind, Clock.lift, Clock.today, Clock.ret.
  repeat match goal with
    | |- context [_get_weather_forecast ?h ?i] =>
        destruct (_get_weather_forecast h i); simpl
    | |- context [_calculate_weather_impact ?w] =>
        destruct (_calculate_weather_impact w); simpl
    | |- context [Py.add ?v ?c] => destruct (Py.add v c); simpl
    | |- context [_generate_pollutant_forecasts ?c ?w ?i] =>
        destruct (_generate_pollutant_forecasts c w i); simpl
    | |- context [_calculate_trend ?c ?a] => destruct (_calculate_trend c a); simpl
    end;
    (eexists _, _, _; split; [reflexivity |]; split; [| reflexivity]; lia).
Qed.

Lemma for_each_reads (f : Z -> Clock.io day_forecast) (xs : list Z) (n : nat) :
  (forall x m, exists d k m',
      f x m = (Ok d, m') /\ (m <= k < m')%nat /\ date d = clock k + x) ->
  exists ds n', Clock.for_each f xs n = (Ok ds, n') /\ reads clock n xs ds n'.
Proof.
  intros Hf. revert n.
  induction xs as [|x xs IH]; intros n; simpl.
  - exists [], n. split; [reflexivity | constructor].
  - destruct (Hf x n) as (d & k & n1 & Hd & Hk & Hdate).
    destruct (IH n1) as (ds & n2 & Hds & Hreads).
    exists (d :: ds), n2. unfold Clock.bind. rewrite Hd, Hds. simpl.
    split; [reflexivity |]. econstructor; eassumption.
Qed.

Lemma reads_length (n n' : nat) (xs : list Z) (ds : list day_forecast) :
  reads clock n xs ds n' -> length ds = length xs.
Proof. induction 1; simpl; congruence. Qed.

Lemma reads_le (n n' : nat) (xs : list Z) (ds : list day_forecast) :
  reads clock n xs ds n' -> (n <= n')%nat.
Proof. induction 1; lia. Qed.

Lemma reads_same_day (n n' : nat) (xs : list Z) (ds : list day_forecast) (today : Z) :
  reads clock n xs ds n' ->
  same_day clock n n' today ->
  dates ds = Z.add today <$> xs.
Proof.
  induction 1 as [|n k n1 n2 x xs d ds Hk Hdate Hreads IH]; intros Hsame;
    [reflexivity |].
  pose proof (reads_le _ _ _ _ Hreads).
  unfold dates in *. simpl. rewrite Hdate, (Hsame k) by lia. f_equal.
  apply IH. intros j Hj. apply Hsame. lia.
Qed.

Lemma reads_ascending (n n' : nat) (xs : list Z) (ds : list day_forecast) :
  reads clock n xs ds n' ->
  never_backwards clock ->
  StronglySorted Z.lt xs ->
  forall c b, c <= clock n -> Forall (Z.lt b) xs ->
    Forall (Z.lt (c + b)) (dates ds) /\ StronglySorted Z.lt (dates ds).
Proof.
  intros Hreads Hmono.
  induction Hreads as [|n k n1 n2 x xs d ds Hk Hdate Hreads IH];
    intros Hsorted c b Hc Hb; unfold dates in *; simpl.
  - split; constructor.
  - apply StronglySorted_inv in Hsorted as [Hsorted Hx].
    apply Forall_cons in Hb as [Hbx Hb].
    pose proof (Hmono n k ltac:(lia)). pose proof (Hmono n n1 ltac:(lia)).
    pose proof (Hmono k n1 ltac:(lia)).
    destruct (IH Hsorted c b ltac:(lia) Hb) as [Hall Hs].
    destruct (IH Hsorted (clock k) x ltac:(lia) Hx) as [Hhead _].
    split.
    + constructor; [lia | assumption].
    + constructor; [assumption |]. rewrite Hdate. assumption.
Qed.

Lemma reads_seven_days (n n' : nat) (ds : list day_forecast) :
  reads clock n (seqZ 1 7) ds n' -> seven_days clock n (Ok ds, n').
Proof.
  intros Hreads. exists ds, n'.
  pose proof (reads_length _ _ _ _ Hreads) as Hlen.
  split; [reflexivity |]. split; [exact Hlen |]. split.
  - intros Hmono.
    apply (reads_ascending _ _ _ _ Hreads Hmono) with (c := clock n) (b := 0);
      [| lia |]; compute; repeat constructor.
  - intros today Hsame. unfold consecutive_from_tomorrow.
    rewrite (reads_same_day _ _ _ _ _ Hreads Hsame), length_fmap, fmap_add_seqZ.
    reflexivity.
Qed.

(** C5, amended: [generate_forecast] always returns exactly 7
    day-forecasts, and so does the default path [_get_default_forecast];
    the dates are strictly ascending when the clock's day never goes
    backwards, and they are the consecutive calendar days starting tomorrow
    when every reading taken during generation falls on the same day. *)
Theorem generate_forecast_dates (current_data : option dict) (n : nat) :
  seven_days clock n (generate_forecast hash clock current_data n) /\
  seven_days clock n (_get_default_forecast clock n).
Proof.
  split.
  - unfold generate_forecast, Clock.try_except, Clock.bind.
    assert (Hstart : exists data n0,
      (match current_data with
       | Some data =>
           if dict_truthy current_data then Clock.ret data else _get_current_data clock
       | None => _get_current_data clock
       end) n = (Ok data, n0) /\ (n <= n0)%nat).
    { destruct current_data as [data|]; [destruct (dict_truthy (Some data)) |];
        eexists _, _; (split; [reflexivity | simpl; lia]). }
    destruct Hstart as (data & n0 & -> & Hn0).
    destruct (for_each_reads (fun i => _generate_day_forecast hash clock i data)
                (seqZ 1 7) n0) as (ds & n' & -> & Hreads).
    { intros x m. apply generate_day_forecast_date. }
    destruct (reads_seven_days _ _ _ Hreads) as (f & m & [= <- <-] & Hlen & Hasc & Hcons).
    exists ds, n'. repeat split; try assumption.
    intros today Hsame. apply Hcons. intros k Hk. apply Hsame. lia.
  - unfold _get_default_forecast.
    destruct (for_each_reads (_get_default_day_forecast clock) (seqZ 1 7) n)
      as (ds & n' & -> & Hreads).
    { intros x m. destruct (default_day_forecast_date x m) as (d & Hd & Hdate).
      exists d, m, (S m). repeat split; try assumption; lia. }
    apply reads_seven_days, Hreads.
Qed.

End ForecastDates.

Lemma generate_forecast_dates_witness :
  seven_days (fun _ => 739923) 0%nat
    (generate_forecast (fun _ => 0) (fun _ => 739923) None 0%nat) /\
  seven_days (fun _ => 739923) 0%nat (_get_default_forecast (fun _ => 739923) 0%nat).
Proof.
  apply (generate_forecast_dates (fun _ => 0) (fun _ => 739923) None 0%nat).
Defined.

(** C5, as stated, fails: each entry reads the clock for itself, so when
    midnight passes between the readings of day 1 and day 2 the dates skip
    a day and are consecutive from no day at all. *)
Lemma generate_forecast_across_midnight :
  exists forecast n',
    generate_forecast (fun _ => 0) midnight_clock None 0%nat = (Ok forecast, n') /\
    dates forecast = [739924; 739926; 739927; 739928; 739929; 739930; 739931] /\
    forall today, ~ consecutive_from_tomorrow today (dates forecast).
Proof.
  eexists _, _. split; [vm_compute; reflexivity |].
  split; [reflexivity |].
  intros today H. unfold consecutive_from_tomorrow in H.
  change (dates _) with [739924; 739926; 739927; 739928; 739929; 739930; 739931] in H.
  cbn in H. injection H as H1 H2 _. lia.
Qed.

(** ** Further properties of the index calculator *)

Import Notions.

(** *** Sub-indices *)

Lemma round_monotone (x y : Q) : (x <= y)%Q -> Py.round x <= Py.round y.
Proof.
  intros Hxy. unfold Py.round.
  pose proof (Qfloor_resp_le _ _ Hxy) as Hf.
  pose proof (Qfloor_le x). pose proof (Qlt_floor x).
  pose proof (Qfloor_le y). pose proof (Qlt_floor y).
  set (fx := Qfloor x) in *. set (fy := Qfloor y) in *.
  destruct (Z.eq_dec fx fy) as [Heq | Hne].
  - rewrite <- Heq in *. clear Heq.
    destruct (Qcompare_spec (x - inject_Z fx) (1 # 2)),
             (Qcompare_spec (y - inject_Z fx) (1 # 2));
      destruct (Z.even fx); try lia; lra.
  - assert (fx + 1 <= fy) by lia.
    destruct (Qcompare_spec (x - inject_Z fx) (1 # 2)),
             (Qcompare_spec (y - inject_Z fy) (1 # 2));
      destruct (Z.even fx), (Z.even fy); lia.
Qed.

Lemma bracket_score_monotone (b : Q * Q * Z * Z) (c1 c2 : Q) :
  bracket_proper b -> (c1 <= c2)%Q -> bracket_score b c1 <= bracket_score b c2.
Proof.
  destruct b as [[[cl ch] al] ah]. intros [Hc Ha] Hle. simpl.
  apply round_monotone.
  assert (Hk : (0 <= inject_Z (ah - al) / (ch - cl))%Q).
  { apply Qle_shift_div_l; [lra |].
    rewrite Qmult_0_l. change 0%Q with (inject_Z 0). rewrite <- Zle_Qle. lia. }
  set (k := (inject_Z (ah - al) / (ch - cl))%Q) in *.
  assert (k * (c1 - cl) <= k * (c2 - cl))%Q.
  { rewrite (Qmult_comm k (c1 - cl)), (Qmult_comm k (c2 - cl)).
    apply Qmult_le_compat_r; lra. }
  lra.
Qed.

Lemma breakpoint_loop_score (table : list (Q * Q * Z * Z)) (c : Q)
    (b : Q * Q * Z * Z) :
  StronglySorted bracket_below table ->
  b ∈ table -> in_bracket c b ->
  breakpoint_loop table c = bracket_score b c.
Proof.
  intros Hsorted. revert b.
  induction table as [|[[[cl ch] al] ah] table IH]; intros b Hb Hin.
  - inversion Hb.
  - apply StronglySorted_inv in Hsorted as [Hsorted Hbelow].
    simpl. unfold Qleb.
    destruct (Qle_bool cl c) eqn:E1, (Qle_bool c ch) eqn:E2; simpl;
      (apply elem_of_cons in Hb as [-> | Hb];
       [ simpl in Hin; destruct Hin as [Hin1 Hin2];
         apply Qle_bool_iff in Hin1, Hin2; try congruence; reflexivity
       | try exact (IH Hsorted b Hb Hin) ]).
    apply Qle_bool_iff in E1, E2.
    rewrite Forall_forall in Hbelow. specialize (Hbelow b Hb).
    destruct b as [[[cl' ch'] al'] ah']. simpl in Hbelow, Hin. lra.
Qed.

Lemma breakpoint_loop_range (table : list (Q * Q * Z * Z)) (c : Q) :
  Forall bracket_proper table -> Forall bracket_on_scale table ->
  0 <= breakpoint_loop table c <= 500.
Proof.
  induction table as [|[[[cl ch] al] ah] table IH]; intros Hp Hs; simpl; [lia |].
  apply Forall_cons in Hp as [[Hc Ha] Hp]. apply Forall_cons in Hs as [[H0 H5] Hs].
  unfold Qleb.
  destruct (Qle_bool cl c) eqn:E1, (Qle_bool c ch) eqn:E2; simpl; auto.
  apply Qle_bool_iff in E1, E2.
  pose proof (round_between al ah _
    (interpolation_between cl ch c al ah Hc Ha (conj E1 E2))). lia.
Qed.

Lemma aqi_breakpoints_ordered :
  map_Forall (fun _ table =>
                Forall bracket_on_scale table /\ StronglySorted bracket_before table)
    aqi_breakpoints.
Proof.
  apply map_Forall_to_list. vm_compute map_to_list.
  repeat first [constructor | done].
Qed.

(** Every sub-index lies on the 0-500 scale, whatever the pollutant and
    the concentration: a table score, the 500 of the fall-through, or the 3
    of a pollutant without a table. *)
Theorem calculate_pollutant_aqi_range (pollutant : string) (c : Q) :
  0 <= _calculate_pollutant_aqi pollutant c <= 500.
Proof.
  unfold _calculate_pollutant_aqi.
  destruct (aqi_breakpoints !! pollutant) as [table|] eqn:Htable; [| lia].
  destruct (aqi_breakpoints_well_formed _ _ Htable) as [Hp _].
  destruct (aqi_breakpoints_ordered _ _ Htable) as [Hs _].
  apply breakpoint_loop_range; assumption.
Qed.

Lemma sorted_before_or_after (table : list (Q * Q * Z * Z)) (b1 b2 : Q * Q * Z * Z) :
  StronglySorted bracket_before table -> b1 ∈ table -> b2 ∈ table ->
  b1 = b2 \/ bracket_before b1 b2 \/ bracket_before b2 b1.
Proof.
  induction 1 as [|b table Hsorted IH Hall]; intros H1 H2; [inversion H1 |].
  rewrite Forall_forall in Hall.
  apply elem_of_cons in H1 as [-> | H1]; apply elem_of_cons in H2 as [-> | H2]; auto.
Qed.

(** Over the concentrations that lie in brackets, the sub-index never
    decreases as the concentration grows, within a bracket and from one
    bracket to a later one. *)
Theorem calculate_pollutant_aqi_monotone (pollutant : string)
    (table : list (Q * Q * Z * Z)) (b1 b2 : Q * Q * Z * Z) (c1 c2 : Q) :
  aqi_breakpoints !! pollutant = Some table ->
  b1 ∈ table -> in_bracket c1 b1 ->
  b2 ∈ table -> in_bracket c2 b2 ->
  (c1 <= c2)%Q ->
  _calculate_pollutant_aqi pollutant c1 <= _calculate_pollutant_aqi pollutant c2.
Proof.
  intros Htable Hb1 Hin1 Hb2 Hin2 Hle.
  destruct (aqi_breakpoints_well_formed _ _ Htable) as [Hp Hsorted].
  destruct (aqi_breakpoints_ordered _ _ Htable) as [_ Hordered].
  destruct (sorted_before_or_after _ _ _ Hordered Hb1 Hb2) as [<- | [Hlt | Hgt]].
  - unfold _calculate_pollutant_aqi. rewrite Htable.
    rewrite (breakpoint_loop_score _ _ _ Hsorted Hb1 Hin1),
            (breakpoint_loop_score _ _ _ Hsorted Hb1 Hin2).
    apply bracket_score_monotone; [| assumption].
    rewrite Forall_forall in Hp. auto.
  - pose proof (calculate_pollutant_aqi_in_bracket _ _ _ _ Htable Hb1 Hin1) as H1.
    pose proof (calculate_pollutant_aqi_in_bracket _ _ _ _ Htable Hb2 Hin2) as H2.
    destruct b1 as [[[? ?] ?] ?], b2 as [[[? ?] ?] ?]. simpl in Hlt. lia.
  - destruct b1 as [[[? ?] ?] ?], b2 as [[[? ?] ?] ?]. simpl in Hgt, Hin1, Hin2. lra.
Qed.

Lemma calculate_pollutant_aqi_monotone_witness :
  _calculate_pollutant_aqi "pm25" 10 <= _calculate_pollutant_aqi "pm25" 40.
Proof.
  apply (calculate_pollutant_aqi_monotone "pm25"
           [ bracket 0 12 0 50; bracket 12.1 35.4 51 100; bracket 35.5 55.4 101 150;
             bracket 55.5 150.4 151 200; bracket 150.5 250.4 201 300;
             bracket 250.5 500.4 301 500 ]
           (bracket 0 12 0 50) (bracket 35.5 55.4 101 150) 10 40).
  - reflexivity.
  - set_solver.
  - split; discriminate.
  - set_solver.
  - split; discriminate.
  - discriminate.
Defined.

(** *** Scale mapping and weather corrections *)

(** The display scale cuts the 0-500 index every 50 points: a scaled
    index is at most [k] exactly when the index is at most [50 k], for [k]
    from 1 to 4; so a higher index never gets a lower display value. *)
Theorem scale_aqi_to_5_bands (aqi k : Z) :
  1 <= k <= 4 -> (_scale_aqi_to_5 aqi <= k <-> aqi <= 50 * k).
Proof.
  intros Hk. unfold _scale_aqi_to_5.
  repeat case_match;
    repeat match goal with
      | H : (_ <=? _) = true |- _ => apply Z.leb_le in H
      | H : (_ <=? _) = false |- _ => apply Z.leb_gt in H
      end; lia.
Qed.

Lemma scale_aqi_to_5_bands_witness :
  _scale_aqi_to_5 137 <= 3 <-> 137 <= 50 * 3.
Proof. apply (scale_aqi_to_5_bands 137 3). lia. Defined.

Lemma scale_aqi_to_5_monotone (a b : Z) :
  a <= b -> _scale_aqi_to_5 a <= _scale_aqi_to_5 b.
Proof.
  intros Hab. unfold _scale_aqi_to_5.
  repeat case_match;
    repeat match goal with
      | H : (_ <=? _) = true |- _ => apply Z.leb_le in H
      | H : (_ <=? _) = false |- _ => apply Z.leb_gt in H
      end; lia.
Qed.

(** The shape every run of the corrections on a non-empty weather
    dictionary has: three threshold steps and the pressure step, then the
    clamp. *)
Lemma apply_weather_corrections_steps (aqi : Z) (weather : dict) (r : Z) :
  dict_truthy (Some weather) = true ->
  _apply_weather_corrections aqi (Some weather) = Ok r ->
  exists dw dt dh dp,
    dw ∈ [-10; 0; 15] /\ dt ∈ [10; 0; -5] /\ dh ∈ [5; 0; -5] /\ dp ∈ [0; 10] /\
    r = Z.max 0 (Z.min 500 (aqi + dw + dt + dh + dp)).
Proof.
  intros Ht. unfold _apply_weather_corrections. rewrite Ht. cbn [negb].
  destruct (get_default weather "wind_speed" (PNum 5)) as [|w|]; simpl; try discriminate.
  destruct (get_default weather "temperature" (PNum 20)) as [|t|]; simpl;
    try (destruct (Qltb 10 w), (Qltb w 2); discriminate).
  destruct (get_default weather "humidity" (PNum 50)) as [|h|]; simpl;
    try (destruct (Qltb 10 w), (Qltb w 2), (Qltb 30 t), (Qltb t 5); discriminate).
  destruct (get_default weather "pressure" (PNum 1013)) as [|p|]; simpl;
    try (destruct (Qltb 10 w), (Qltb w 2), (Qltb 30 t), (Qltb t 5),
           (Qltb 80 h), (Qltb h 30); discriminate).
  intros Hr.
  exists (if Qltb 10 w then -10 else if Qltb w 2 then 15 else 0),
         (if Qltb 30 t then 10 else if Qltb t 5 then -5 else 0),
         (if Qltb 80 h then 5 else if Qltb h 30 then -5 else 0),
         (if Qltb p 1000 then 10 else 0).
  destruct (Qltb 10 w), (Qltb w 2), (Qltb 30 t), (Qltb t 5),
    (Qltb 80 h), (Qltb h 30), (Qltb p 1000); simpl in Hr; injection Hr as <-;
    rewrite !elem_of_cons; (repeat split; try lia); f_equal; f_equal; lia.
Qed.

(** A corrected index is back on the 0-500 scale whenever weather was
    given, and for a base index on the scale it is at most 20 below and at
    most 40 above the base; without weather the base index is returned
    untouched, clamped or not. *)
Theorem apply_weather_corrections_range (aqi : Z) (weather_data : option dict) (r : Z) :
  _apply_weather_corrections aqi weather_data = Ok r ->
  (dict_truthy weather_data = false -> r = aqi) /\
  (dict_truthy weather_data = true ->
     0 <= r <= 500 /\ (0 <= aqi <= 500 -> aqi - 20 <= r <= aqi + 40)).
Proof.
  intros Hr. split; intros Ht.
  - unfold _apply_weather_corrections in Hr.
    destruct weather_data as [weather|]; [rewrite Ht in Hr |]; simpl in Hr; congruence.
  - destruct weather_data as [weather|]; [| discriminate].
    destruct (apply_weather_corrections_steps _ _ _ Ht Hr)
      as (dw & dt & dh & dp & Hw & Htemp & Hh & Hp & ->).
    assert (-10 <= dw <= 15 /\ -5 <= dt <= 10 /\ -5 <= dh <= 5 /\ 0 <= dp <= 10)
      as (? & ? & ? & ?).
    { repeat split;
        repeat match goal with
          | H : _ ∈ _ :: _ |- _ => apply elem_of_cons in H as [-> | H]
          | H : _ ∈ [] |- _ => inversion H
          end; lia. }
    lia.
Qed.

Lemma apply_weather_corrections_range_witness :
  (dict_truthy (Some {[ "wind_speed" := PNum 1 ]}) = false -> 500 = 490) /\
  (dict_truthy (Some {[ "wind_speed" := PNum 1 ]}) = true ->
     0 <= 500 <= 500 /\ (0 <= 490 <= 500 -> 490 - 20 <= 500 <= 490 + 40)).
Proof.
  apply (apply_weather_corrections_range 490 (Some {[ "wind_speed" := PNum 1 ]}) 500).
  reflexivity.
Defined.

(** For fixed weather the corrected index never decreases when the base
    index grows; whether the corrections raise depends on the weather
    alone. *)
Theorem apply_weather_corrections_monotone (aqi1 aqi2 : Z) (weather_data : option dict) :
  aqi1 <= aqi2 ->
  ordered_outcomes (_apply_weather_corrections aqi1 weather_data)
                   (_apply_weather_corrections aqi2 weather_data).
Proof.
  intros Hle. unfold _apply_weather_corrections, ordered_outcomes.
  destruct weather_data as [weather|]; [| assumption].
  destruct (negb (dict_truthy (Some weather))); [assumption |].
  destruct (get_default weather "wind_speed" (PNum 5)) as [|w|]; simpl; trivial.
  destruct (get_default weather "temperature" (PNum 20)) as [|t|];
    destruct (Qltb 10 w), (Qltb w 2); simpl; trivial;
  (destruct (get_default weather "humidity" (PNum 50)) as [|h|];
    destruct (Qltb 30 t), (Qltb t 5); simpl; trivial;
   (destruct (get_default weather "pressure" (PNum 1013)) as [|p|];
     destruct (Qltb 80 h), (Qltb h 30); simpl; trivial;
     destruct (Qltb p 1000); lia)).
Qed.

Lemma apply_weather_corrections_monotone_witness :
  ordered_outcomes
    (_apply_weather_corrections 40 (Some {[ "temperature" := PNum 35 ]}))
    (_apply_weather_corrections 60 (Some {[ "temperature" := PNum 35 ]})).
Proof.
  apply (apply_weather_corrections_monotone 40 60 (Some {[ "temperature" := PNum 35 ]})).
  lia.
Defined.

Lemma field_within_get (weather : dict) (k : string) (dflt lo hi : Q) :
  field_within weather k lo hi -> (lo <= dflt <= hi)%Q ->
  exists q, get_default weather k (PNum dflt) = PNum q /\ (lo <= q <= hi)%Q.
Proof.
  unfold field_within, get_default. intros H Hd.
  destruct (weather !! k) as [[|q|]|]; simpl; try contradiction; eauto.
Qed.

Lemma field_at_least_get (weather : dict) (k : string) (dflt lo : Q) :
  field_at_least weather k lo -> (lo <= dflt)%Q ->
  exists q, get_default weather k (PNum dflt) = PNum q /\ (lo <= q)%Q.
Proof.
  unfold field_at_least, get_default. intros H Hd.
  destruct (weather !! k) as [[|q|]|]; simpl; try contradiction; eauto.
Qed.

(** Weather that crosses no threshold (wind in [2, 10], temperature in
    [5, 30], humidity in [30, 80], pressure at least 1000, a missing field
    counting as its default) changes nothing: the corrected index is the
    base index clamped to the scale, and the weather factor is 0.5. *)
Theorem neutral_weather_no_correction (aqi : Z) (weather : dict) :
  neutral_weather weather ->
  _apply_weather_corrections aqi (Some weather)
    = Ok (if dict_truthy (Some weather) then Z.max 0 (Z.min 500 aqi) else aqi) /\
  _calculate_weather_factor (Some weather) = Ok 0.5%Q.
Proof.
  intros (Hw & Ht & Hh & Hp).
  destruct (field_within_get _ _ 5 _ _ Hw ltac:(lra)) as (w & Ew & Hw1 & Hw2).
  destruct (field_within_get _ _ 20 _ _ Ht ltac:(lra)) as (t & Et & Ht1 & Ht2).
  destruct (field_within_get _ _ 50 _ _ Hh ltac:(lra)) as (h & Eh & Hh1 & Hh2).
  destruct (field_at_least_get _ _ 1013 _ Hp ltac:(lra)) as (p & Ep & Hp1).
  unfold _apply_weather_corrections, _calculate_weather_factor.
  destruct (dict_truthy (Some weather)); cbn [negb]; [| split; reflexivity].
  rewrite Ew, Et, Eh, Ep. simpl.
  rewrite (Qltb_false 10 w), (Qltb_false w 2), (Qltb_false 30 t), (Qltb_false t 5),
    (Qltb_false 80 h), (Qltb_false h 30), (Qltb_false p 1000) by lra.
  split; reflexivity.
Qed.

Lemma neutral_weather_no_correction_witness :
  _apply_weather_corrections 120 (Some {[ "humidity" := PNum 55 ]})
    = Ok (if dict_truthy (Some {[ "humidity" := PNum 55 ]})
          then Z.max 0 (Z.min 500 120) else 120) /\
  _calculate_weather_factor (Some {[ "humidity" := PNum 55 ]}) = Ok 0.5%Q.
Proof.
  apply (neutral_weather_no_correction 120 {[ "humidity" := PNum 55 ]}).
  repeat split; simpl; discriminate.
Defined.


(** *** The whole calculation *)

(** Every reported source is a truthy value, and there are one or two of
    them: the list is never empty. *)
Theorem get_data_sources_shape (tempo_data ground_data : option dict) :
  let sources := _get_data_sources tempo_data ground_data in
  Forall (fun v => truthy v = true) sources /\ (1 <= length sources <= 2)%nat.
Proof.
  unfold _get_data_sources, source_of.
  destruct tempo_data as [tempo|], ground_data as [ground|]; simpl;
    repeat match goal with
      | |- context [negb (bool_decide ?P) && truthy ?v] =>
          destruct (negb (bool_decide P)); simpl; [destruct (truthy v) eqn:? |]; simpl
      end;
    (split; [repeat constructor; assumption | lia]).
Qed.

Lemma aqi_values_fold (pollutants : dict) :
  match map_fold aqi_values_step (Ok ∅) pollutants with
  | Ok aqi_values => forall p, aqi_values !! p = pollutants !! p ≫= scored p
  | Raise _ => exists p v, pollutants !! p = Some v /\ is_text v
  end /\
  ((exists p v, pollutants !! p = Some v /\ is_text v) ->
   exists e, map_fold aqi_values_step (Ok ∅) pollutants = Raise e).
Proof.
  apply (map_fold_weak_ind (fun r (m : dict) =>
    match r with
    | Ok aqi_values => forall p, aqi_values !! p = m !! p ≫= scored p
    | Raise _ => exists p v, m !! p = Some v /\ is_text v
    end /\
    ((exists p v, m !! p = Some v /\ is_text v) -> exists e, r = Raise e))).
  - split; [intros p; rewrite !lookup_empty; reflexivity |].
    intros (p & v & Hp & _). rewrite lookup_empty in Hp. discriminate.
  - intros i x m r Hi [IH1 IH2]. unfold aqi_values_step.
    destruct r as [aqi_values | e]; simpl.
    + destruct x as [|q|s].
      * split.
        -- intros p. rewrite IH1. destruct (decide (i = p)) as [-> | Hne].
           ++ rewrite lookup_insert_eq, Hi. reflexivity.
           ++ rewrite lookup_insert_ne by assumption. reflexivity.
        -- intros (p & v & Hp & Hv). destruct (decide (i = p)) as [-> | Hne].
           ++ rewrite lookup_insert_eq in Hp. injection Hp as <-. contradiction.
           ++ rewrite lookup_insert_ne in Hp by assumption. eauto.
      * assert (Hno : (exists p v, <[i := PNum q]> m !! p = Some v /\ is_text v) ->
                       exists p v, m !! p = Some v /\ is_text v).
        { intros (p & v & Hp & Hv). destruct (decide (i = p)) as [-> | Hne].
          - rewrite lookup_insert_eq in Hp. injection Hp as <-. contradiction.
          - rewrite lookup_insert_ne in Hp by assumption. eauto. }
        destruct (Qltb 0 q) eqn:Hq; simpl;
          (split; [| intros H; destruct (IH2 (Hno H)); discriminate]);
          intros p; (destruct (decide (i = p)) as [-> | Hne];
            [ rewrite ?lookup_insert_eq; simpl; rewrite Hq;
              try reflexivity; rewrite IH1, Hi; reflexivity
            | rewrite !lookup_insert_ne by assumption; apply IH1 ]).
      * split; [| eauto].
        exists i, (PStr s). rewrite lookup_insert_eq. split; [reflexivity | exact I].
    + split; [| eauto].
      destruct IH1 as (p & v & Hp & Hv). exists p, v. split; [| assumption].
      destruct (decide (i = p)) as [-> | Hne]; [congruence |].
      rewrite lookup_insert_ne by assumption. assumption.
Qed.

Lemma calculate_aqi_try_fields
    (tempo_data ground_data weather_data : option dict) (data : aqi_data) :
  calculate_aqi_try tempo_data ground_data weather_data = Ok data ->
  let pollutants := _extract_pollutants tempo_data ground_data in
  (forall p, individual_aqi data !! p = scored p (Py.get pollutants p)) /\
  no2 data = Py.get pollutants "no2" /\ o3 data = Py.get pollutants "o3" /\
  pm25 data = Py.get pollutants "pm25" /\ pm10 data = Py.get pollutants "pm10".
Proof.
  intros Htry. unfold calculate_aqi_try in Htry.
  destruct (aqi_values_fold (_extract_pollutants tempo_data ground_data)) as [Hfold _].
  destruct (map_fold aqi_values_step (Ok ∅) _) as [aqi_values|]; [| discriminate].
  simpl in Htry.
  repeat match type of Htry with
    | context [Py.bind ?c _] => destruct c; simpl in Htry; try discriminate
    end.
  injection Htry as <-. simpl. repeat split.
  intros p. rewrite Hfold. unfold Py.get.
  destruct (_extract_pollutants tempo_data ground_data !! p); reflexivity.
Qed.

(** A pollutant gets a sub-index exactly when its merged concentration is
    a positive number, and the sub-index is then the score of that
    concentration: [None], zero and negative concentrations are left out of
    the aggregation, never scored.  The pollutant fields of the result are
    the merged concentrations themselves. *)
Theorem calculate_aqi_individual
    (tempo_data ground_data weather_data : option dict) (data : aqi_data) :
  calculate_aqi_try tempo_data ground_data weather_data = Ok data ->
  let pollutants := _extract_pollutants tempo_data ground_data in
  (forall p, individual_aqi data !! p = scored p (Py.get pollutants p)) /\
  no2 data = Py.get pollutants "no2" /\ o3 data = Py.get pollutants "o3" /\
  pm25 data = Py.get pollutants "pm25" /\ pm10 data = Py.get pollutants "pm10".
Proof. exact (calculate_aqi_try_fields tempo_data ground_data weather_data data). Qed.

Lemma calculate_aqi_individual_witness :
  let pollutants := _extract_pollutants example_tempo example_ground in
  let data := calculate_aqi example_tempo example_ground example_weather in
  (forall p, individual_aqi data !! p = scored p (Py.get pollutants p)) /\
  no2 data = Py.get pollutants "no2" /\ o3 data = Py.get pollutants "o3" /\
  pm25 data = Py.get pollutants "pm25" /\ pm10 data = Py.get pollutants "pm10".
Proof.
  apply (calculate_aqi_individual example_tempo example_ground example_weather).
  vm_compute. reflexivity.
Defined.

Lemma max_of_spec (xs : list Z) :
  xs <> [] -> exists m, max_of xs = Ok m /\ m ∈ xs /\ Forall (fun x => x <= m) xs.
Proof.
  destruct xs as [|x xs]; [congruence |]. intros _. simpl.
  exists (fold_left Z.max xs x). split; [reflexivity |].
  revert x. induction xs as [|y xs IH]; intros x; simpl.
  - split; [apply list_elem_of_here | repeat constructor; lia].
  - destruct (IH (Z.max x y)) as [Hin Hall].
    apply Forall_cons in Hall as [Hm Hall]. split.
    + apply elem_of_cons in Hin as [Heq | Hin].
      * rewrite Heq. destruct (Z.max_spec x y) as [[_ ->] | [_ ->]];
          [apply list_elem_of_further |]; apply list_elem_of_here.
      * do 2 apply list_elem_of_further. assumption.
    + repeat constructor; try lia. assumption.
Qed.

Lemma overall_aqi_spec (aqi_values : gmap string Z) :
  aqi_values <> ∅ ->
  exists m, max_of (snd <$> map_to_list aqi_values) = Ok m /\
            (exists p, aqi_values !! p = Some m) /\
            (forall p v, aqi_values !! p = Some v -> v <= m).
Proof.
  intros Hne.
  destruct (max_of_spec (snd <$> map_to_list aqi_values)) as (m & Hm & Hin & Hall).
  { intros Hnil. apply fmap_nil_inv in Hnil. apply map_to_list_empty_iff in Hnil.
    contradiction. }
  exists m. split; [assumption |]. split.
  - apply list_elem_of_fmap in Hin as ([p v] & -> & Hpv).
    exists p. apply elem_of_map_to_list in Hpv. assumption.
  - intros p v Hpv. rewrite Forall_forall in Hall. apply Hall.
    apply list_elem_of_fmap. exists (p, v). split; [reflexivity |].
    apply elem_of_map_to_list. assumption.
Qed.

Lemma apply_weather_corrections_raise (aqi : Z) (weather_data : option dict) :
  (exists e, _apply_weather_corrections aqi weather_data = Raise e)
  <-> weather_ill_typed weather_data.
Proof.
  unfold _apply_weather_corrections, weather_ill_typed, weather_fields.
  destruct weather_data as [weather|]; [| split; [intros [e He]; discriminate | tauto]].
  destruct (dict_truthy (Some weather)); cbn [negb];
    [| split; [intros [e He]; discriminate | intros [? _]; discriminate]].
  rewrite !Exists_cons, Exists_nil.
  destruct (get_default weather "wind_speed" (PNum 5)) as [|w|]; simpl;
    try (split; [intros _; split; [reflexivity | left; exact I] | eauto]).
  destruct (Qltb 10 w), (Qltb w 2); simpl;
  (destruct (get_default weather "temperature" (PNum 20)) as [|t|]; simpl;
    try (split; [intros _; split; [reflexivity | right; left; exact I] | eauto]);
   destruct (Qltb 30 t), (Qltb t 5); simpl;
   (destruct (get_default weather "humidity" (PNum 50)) as [|h|]; simpl;
     try (split; [intros _; split; [reflexivity | right; right; left; exact I] | eauto]);
    destruct (Qltb 80 h), (Qltb h 30); simpl;
    (destruct (get_default weather "pressure" (PNum 1013)) as [|p|]; simpl;
      try (split; [intros _; split; [reflexivity | right; right; right; left; exact I]
                  | eauto]);
     (split; [intros [e He]; discriminate | intros [_ H]; tauto])))).
Qed.

Lemma weather_factor_after_corrections (aqi r : Z) (weather_data : option dict) :
  _apply_weather_corrections aqi weather_data = Ok r ->
  exists f, _calculate_weather_factor weather_data = Ok f.
Proof.
  unfold _calculate_weather_factor, _apply_weather_corrections.
  destruct weather_data as [weather|];
    [destruct (negb (dict_truthy (Some weather))) |]; eauto.
  destruct (get_default weather "wind_speed" (PNum 5)) as [|w|]; simpl;
    try discriminate.
  destruct (get_default weather "temperature" (PNum 20)) as [|t|];
    destruct (Qltb 10 w), (Qltb w 2); simpl; try discriminate;
  (destruct (get_default weather "humidity" (PNum 50)) as [|h|];
    destruct (Qltb 30 t), (Qltb t 5); simpl; try discriminate;
   (destruct (Qltb 80 h), (Qltb h 30); simpl; eauto)).
Qed.

Lemma calculate_aqi_try_raise_iff
    (tempo_data ground_data weather_data : option dict) :
  (exists e, calculate_aqi_try tempo_data ground_data weather_data = Raise e)
  <-> (exists p v, _extract_pollutants tempo_data ground_data !! p = Some v /\ is_text v)
      \/ weather_ill_typed weather_data.
Proof.
  unfold calculate_aqi_try.
  destruct (aqi_values_fold (_extract_pollutants tempo_data ground_data))
    as [Hfold Htext].
  destruct (map_fold aqi_values_step (Ok ∅) _) as [aqi_values | e]; simpl.
  - assert (Hoverall : exists overall,
      (if negb (bool_decide (aqi_values = ∅))
       then max_of (snd <$> map_to_list aqi_values) else Ok 3) = Ok overall).
    { case_bool_decide as Hempty; simpl; [eauto |].
      destruct (overall_aqi_spec _ Hempty) as (m & -> & _). eauto. }
    destruct Hoverall as [overall ->]. simpl.
    pose proof (apply_weather_corrections_raise overall weather_data) as Hraise.
    destruct (_apply_weather_corrections overall weather_data) as [r | e] eqn:Hr; simpl.
    + destruct (weather_factor_after_corrections _ _ _ Hr) as [f ->]. simpl.
      split; [intros [e He]; discriminate |].
      intros [Ht | Hw]; [destruct (Htext Ht); discriminate |].
      apply Hraise in Hw as [e He]. discriminate.
    + split; [intros _; right; apply Hraise; eauto | eauto].
  - split; [intros _; left; assumption | eauto].
Qed.

(** [calculate_aqi] answers with its default result in exactly two
    situations: a merged pollutant concentration is a string, or the
    weather dictionary is non-empty and one of the four fields it reads is
    present without being a number.  In every other case the result is
    computed. *)
Theorem calculate_aqi_default_path
    (tempo_data ground_data weather_data : option dict) :
  let pollutants := _extract_pollutants tempo_data ground_data in
  let ill_typed :=
    (exists p v, pollutants !! p = Some v /\ is_text v) \/
    weather_ill_typed weather_data in
  ((exists e, calculate_aqi_try tempo_data ground_data weather_data = Raise e)
   <-> ill_typed) /\
  (ill_typed -> calculate_aqi tempo_data ground_data weather_data = _get_default_aqi).
Proof.
  cbv zeta.
  pose proof (calculate_aqi_try_raise_iff tempo_data ground_data weather_data)
    as Hiff.
  split; [exact Hiff |].
  intros Hill. apply Hiff in Hill as [e He]. unfold calculate_aqi. rewrite He. reflexivity.
Qed.

Lemma calculate_aqi_try_calm
    (tempo_data ground_data weather_data : option dict) (data : aqi_data) :
  calm_or_absent weather_data ->
  calculate_aqi_try tempo_data ground_data weather_data = Ok data ->
  (forall p v, individual_aqi data !! p = Some v -> _scale_aqi_to_5 v <= aqi data) /\
  (individual_aqi data = ∅ -> aqi data = 1) /\
  (individual_aqi data <> ∅ ->
   exists p v, individual_aqi data !! p = Some v /\ aqi data = _scale_aqi_to_5 v).
Proof.
  intros Hcalm Htry. unfold calculate_aqi_try in Htry.
  destruct (aqi_values_fold (_extract_pollutants tempo_data ground_data)) as [Hfold _].
  destruct (map_fold aqi_values_step (Ok ∅) _) as [aqi_values|]; [| discriminate].
  simpl in Htry.
  assert (Hscale : forall p v, aqi_values !! p = Some v -> 0 <= v <= 500).
  { intros p v Hv. rewrite Hfold in Hv.
    destruct (_extract_pollutants tempo_data ground_data !! p) as [[|q|]|];
      simpl in Hv; try discriminate.
    destruct (Qltb 0 q); [| discriminate]. injection Hv as <-.
    unfold _calculate_pollutant_aqi.
    destruct (aqi_breakpoints !! p) as [table|] eqn:Htable; [| lia].
    destruct (aqi_breakpoints_well_formed _ _ Htable) as [Hp _].
    destruct (aqi_breakpoints_ordered _ _ Htable) as [Hs _].
    apply breakpoint_loop_range; assumption. }
  assert (Hcorr : forall overall, 0 <= overall <= 500 ->
            _apply_weather_corrections overall weather_data = Ok overall).
  { intros overall Ho. destruct weather_data as [weather|]; [| reflexivity].
    destruct Hcalm as (Hw & Ht & Hh & Hp).
    destruct (field_within_get _ _ 5 _ _ Hw ltac:(lra)) as (w & Ew & Hw1 & Hw2).
    destruct (field_within_get _ _ 20 _ _ Ht ltac:(lra)) as (t & Et & Ht1 & Ht2).
    destruct (field_within_get _ _ 50 _ _ Hh ltac:(lra)) as (h & Eh & Hh1 & Hh2).
    destruct (field_at_least_get _ _ 1013 _ Hp ltac:(lra)) as (p & Ep & Hp1).
    unfold _apply_weather_corrections.
    destruct (dict_truthy (Some weather)); cbn [negb]; [| reflexivity].
    rewrite Ew, Et, Eh, Ep. simpl.
    rewrite (Qltb_false 10 w), (Qltb_false w 2), (Qltb_false 30 t), (Qltb_false t 5),
      (Qltb_false 80 h), (Qltb_false h 30), (Qltb_false p 1000) by lra.
    simpl. f_equal. lia. }
  case_bool_decide as Hempty; simpl in Htry.
  - rewrite (Hcorr 3) in Htry by lia. simpl in Htry.
    destruct (_calculate_weather_factor weather_data); [| discriminate].
    injection Htry as <-. simpl. subst aqi_values.
    split; [intros p v Hv; rewrite lookup_empty in Hv; discriminate |].
    split; [reflexivity | congruence].
  - destruct (overall_aqi_spec _ Hempty) as (m & Hm & [pm Hpm] & Hmax).
    rewrite Hm in Htry. simpl in Htry.
    rewrite (Hcorr m) in Htry by eauto. simpl in Htry.
    destruct (_calculate_weather_factor weather_data); [| discriminate].
    injection Htry as <-. simpl.
    split; [intros p v Hv; apply scale_aqi_to_5_monotone; eauto |].
    split; [congruence | eauto].
Qed.

(** With weather that is missing or crosses no threshold, the worst
    pollutant governs: the scaled index is at least the scaled value of
    every sub-index and equals the scaled value of one of them; with no
    sub-index at all it is 1. *)
Theorem calculate_aqi_worst_pollutant
    (tempo_data ground_data weather_data : option dict) (data : aqi_data) :
  calm_or_absent weather_data ->
  calculate_aqi_try tempo_data ground_data weather_data = Ok data ->
  (forall p v, individual_aqi data !! p = Some v -> _scale_aqi_to_5 v <= aqi data) /\
  (individual_aqi data = ∅ -> aqi data = 1) /\
  (individual_aqi data <> ∅ ->
   exists p v, individual_aqi data !! p = Some v /\ aqi data = _scale_aqi_to_5 v).
Proof. exact (calculate_aqi_try_calm tempo_data ground_data weather_data data). Qed.

Lemma calculate_aqi_worst_pollutant_witness :
  let data := calculate_aqi example_tempo example_ground None in
  (forall p v, individual_aqi data !! p = Some v -> _scale_aqi_to_5 v <= aqi data) /\
  (individual_aqi data = ∅ -> aqi data = 1) /\
  (individual_aqi data <> ∅ ->
   exists p v, individual_aqi data !! p = Some v /\ aqi data = _scale_aqi_to_5 v).
Proof.
  apply (calculate_aqi_worst_pollutant example_tempo example_ground None).
  - exact I.
  - vm_compute. reflexivity.
Defined.

(** ** Further properties of the forecast generator *)

Lemma clamp_between (lo hi x : Q) :
  (lo <= hi)%Q -> (lo <= Py.max lo (Py.min hi x) <= hi)%Q.
Proof.
  intros Hle. unfold Py.max, Py.min, Qltb.
  destruct (Qle_bool hi x) eqn:E1; simpl.
  - destruct (Qle_bool hi lo) eqn:E2; simpl; [apply Qle_bool_iff in E2 |]; lra.
  - assert (x < hi)%Q.
    { destruct (Qlt_le_dec x hi) as [|H]; [assumption |].
      apply Qle_bool_iff in H. congruence. }
    destruct (Qle_bool x lo) eqn:E2; simpl; [lra |].
    assert (lo < x)%Q.
    { destruct (Qlt_le_dec lo x) as [|H']; [assumption |].
      apply Qle_bool_iff in H'. congruence. }
    lra.
Qed.

(** The weather impact, when it is computed, is an integer from -2 to 2. *)
Theorem calculate_weather_impact_range (weather_forecast : dict) (impact : Z) :
  _calculate_weather_impact weather_forecast = Ok impact -> -2 <= impact <= 2.
Proof.
  unfold _calculate_weather_impact.
  destruct (get_default weather_forecast "temperature" (PNum 20)) as [|t|]; simpl;
    try discriminate.
  destruct (get_default weather_forecast "wind_speed" (PNum 5)) as [|w|];
    destruct (Qltb 30 t), (Qltb t 5); simpl; try discriminate;
  (destruct (get_default weather_forecast "humidity" (PNum 50)) as [|h|];
    destruct (Qltb 10 w), (Qltb w 2); simpl; try discriminate;
   (destruct (Qltb 80 h), (Qltb h 30); simpl; intros [= <-]; lia)).
Qed.

Lemma calculate_weather_impact_range_witness :
  -2 <= 2 <= 2.
Proof.
  apply (calculate_weather_impact_range
           (list_to_map [ ("temperature", PNum 35); ("wind_speed", PNum 1);
                          ("humidity", PNum 90) ]) 2).
  reflexivity.
Defined.

(** The projected index, when it is computed, lies in [1, 5], whatever the
    baseline index, the weather, the season and the hash. *)
Theorem calculate_forecast_aqi_range (hash : string -> Z) (clock : nat -> Z)
    (current_data weather_forecast : dict) (days_ahead : Z) (n n' : nat)
    (forecast_aqi : Q) :
  _calculate_forecast_aqi hash clock current_data weather_forecast days_ahead n
    = (Ok forecast_aqi, n') ->
  (1 <= forecast_aqi <= 5)%Q.
Proof.
  unfold _calculate_forecast_aqi, _calculate_seasonal_factor, Clock.bind, Clock.lift,
    Clock.today, Clock.ret.
  destruct (_calculate_weather_impact weather_forecast) as [wf|]; [| discriminate].
  destruct (Py.add _ _) as [with_weather|]; [| discriminate].
  intros [= <- _]. apply clamp_between. lra.
Qed.

Lemma calculate_forecast_aqi_range_witness :
  (1 <= 5 <= 5)%Q.
Proof.
  apply (calculate_forecast_aqi_range (fun _ => 2) (fun _ => 739800)
           {[ "aqi" := PNum 5 ]} ∅ 1 0%nat 1%nat 5%Q).
  vm_compute. reflexivity.
Defined.

Lemma inject_Z_between (lo z hi : Z) :
  lo <= z <= hi -> (inject_Z lo <= inject_Z z <= inject_Z hi)%Q.
Proof. intros [H1 H2]. split; rewrite <- Zle_Qle; assumption. Qed.

Lemma mock_weather_forecast (hash : string -> Z) (days_ahead : Z) :
  exists weather_forecast conditions,
    _get_weather_forecast hash days_ahead = Ok weather_forecast /\
    integer_field weather_forecast "temperature" 13 27 /\
    integer_field weather_forecast "humidity" 35 64 /\
    integer_field weather_forecast "wind_speed" 0 9 /\
    integer_field weather_forecast "pressure" 1003 1022 /\
    weather_forecast !! "conditions" = Some (PStr conditions) /\
    conditions ∈ ["clear"; "partly cloudy"; "cloudy"; "overcast"; "rainy"].
Proof.
  unfold _get_weather_forecast, _get_weather_conditions, Py.index.
  pose proof (Z.mod_pos_bound (hash (str days_ahead)) 5 ltac:(lia)) as H5.
  pose proof (Z.mod_pos_bound (hash (str days_ahead)) 15 ltac:(lia)).
  pose proof (Z.mod_pos_bound (hash (str (days_ahead + 1))) 30 ltac:(lia)).
  pose proof (Z.mod_pos_bound (hash (str (days_ahead + 2))) 10 ltac:(lia)).
  pose proof (Z.mod_pos_bound (hash (str (days_ahead + 3))) 20 ltac:(lia)).
  change (Z.of_nat (length ["clear"; "partly cloudy"; "cloudy"; "overcast"; "rainy"]))
    with 5.
  assert (Hc : exists c,
    ["clear"; "partly cloudy"; "cloudy"; "overcast"; "rainy"]
      !! Z.to_nat (hash (str days_ahead) mod 5) = Some c /\
    c ∈ ["clear"; "partly cloudy"; "cloudy"; "overcast"; "rainy"]).
  { destruct (lookup_lt_is_Some_2
                ["clear"; "partly cloudy"; "cloudy"; "overcast"; "rainy"]
                (Z.to_nat (hash (str days_ahead) mod 5))) as [c Hc];
      [simpl; lia |].
    exists c. split; [assumption |]. eapply list_elem_of_lookup_2, Hc. }
  destruct Hc as (c & -> & Hin). simpl.
  eexists _, c. split; [reflexivity |].
  unfold integer_field. simpl.
  repeat split; try assumption;
    try (eexists; split; [simplify_lookups; reflexivity | lia]).
Qed.

Lemma mock_weather_impact_value (weather_forecast : dict) :
  integer_field weather_forecast "temperature" 13 27 ->
  integer_field weather_forecast "humidity" 35 64 ->
  integer_field weather_forecast "wind_speed" 0 9 ->
  exists impact,
    _calculate_weather_impact weather_forecast = Ok impact /\ 0 <= impact <= 1.
Proof.
  intros (t & Et & Ht) (h & Eh & Hh) (w & Ew & Hw).
  pose proof (inject_Z_between _ _ _ Ht) as [Ht1 Ht2].
  pose proof (inject_Z_between _ _ _ Hh) as [Hh1 Hh2].
  pose proof (inject_Z_between _ _ _ Hw) as [Hw1 Hw2].
  change (inject_Z 13) with 13%Q in *. change (inject_Z 27) with 27%Q in *.
  change (inject_Z 35) with 35%Q in *. change (inject_Z 64) with 64%Q in *.
  change (inject_Z 0) with 0%Q in *. change (inject_Z 9) with 9%Q in *.
  exists (if Qltb (inject_Z w) 2 then 1 else 0).
  unfold _calculate_weather_impact, get_default. rewrite Et, Eh, Ew. simpl.
  rewrite (Qltb_false 30 (inject_Z t)), (Qltb_false (inject_Z t) 5),
    (Qltb_false 10 (inject_Z w)), (Qltb_false 80 (inject_Z h)),
    (Qltb_false (inject_Z h) 30) by lra.
  simpl. destruct (Qltb (inject_Z w) 2); simpl; split; try reflexivity; lia.
Qed.

(** The built-in weather projection never raises, and its values stay in
    fixed ranges (temperature 13..27, humidity 35..64, wind speed 0..9,
    pressure 1003..1022); so the only weather effect it can ever trigger is
    still air, and its impact on the projected index is 0 or +1. *)
Theorem mock_weather_impact (hash : string -> Z) (days_ahead : Z) :
  exists weather_forecast impact,
    _get_weather_forecast hash days_ahead = Ok weather_forecast /\
    integer_field weather_forecast "temperature" 13 27 /\
    integer_field weather_forecast "humidity" 35 64 /\
    integer_field weather_forecast "wind_speed" 0 9 /\
    integer_field weather_forecast "pressure" 1003 1022 /\
    _calculate_weather_impact weather_forecast = Ok impact /\
    0 <= impact <= 1.
Proof.
  destruct (mock_weather_forecast hash days_ahead)
    as (wf & c & Hwf & Ht & Hh & Hw & Hp & _).
  destruct (mock_weather_impact_value wf Ht Hh Hw) as (impact & Himpact & Hrange).
  exists wf, impact. repeat split; try assumption; lia.
Qed.

Lemma field_numeric_get (d : dict) (k : string) (dflt : Q) :
  field_numeric d k -> exists q, get_default d k (PNum dflt) = PNum q.
Proof.
  unfold field_numeric, get_default.
  destruct (d !! k) as [[|q|]|]; simpl; try contradiction; eauto.
Qed.

Lemma pollutant_forecasts_closed_form (current_data weather_forecast : dict)
    (days_ahead : Z) (no2 o3 pm25 t w h : Q) :
  get_default current_data "no2" (PNum 25) = PNum no2 ->
  get_default current_data "o3" (PNum 60) = PNum o3 ->
  get_default current_data "pm25" (PNum 20) = PNum pm25 ->
  get_default weather_forecast "temperature" (PNum 20) = PNum t ->
  get_default weather_forecast "wind_speed" (PNum 5) = PNum w ->
  get_default weather_forecast "humidity" (PNum 50) = PNum h ->
  exists forecasts,
    _generate_pollutant_forecasts current_data weather_forecast days_ahead = Ok forecasts /\
    forecasts !! "no2"
      = Some (no2 * (1 + (t / 20 - 1) * 0.2) * (1 - (w / 5 - 1) * 0.1))%Q /\
    forecasts !! "o3"
      = Some (o3 * (1 + (t / 20 - 1) * 0.3) * (1 + (h / 50 - 1) * 0.1))%Q /\
    forecasts !! "pm25"
      = Some (pm25 * (1 - (w / 5 - 1) * 0.2) * (1 + (h / 50 - 1) * 0.1))%Q.
Proof.
  intros E1 E2 E3 E4 E5 E6. unfold _generate_pollutant_forecasts.
  rewrite E1, E2, E3, E4, E5, E6. simpl.
  eexists. split; [reflexivity |]. simplify_lookups. repeat split.
Qed.

(** With projected weather at the reference point (temperature 20, wind
    speed 5, humidity 50, a missing field counting as such) and numeric
    baselines, every projected pollutant level equals its baseline, the
    baseline of a missing pollutant being 25 (NO2), 60 (O3) or 20 (PM2.5). *)
Theorem pollutant_forecasts_reference_weather
    (current_data weather_forecast : dict) (days_ahead : Z) :
  field_numeric current_data "no2" -> field_numeric current_data "o3" ->
  field_numeric current_data "pm25" ->
  field_within weather_forecast "temperature" 20 20 ->
  field_within weather_forecast "wind_speed" 5 5 ->
  field_within weather_forecast "humidity" 50 50 ->
  exists forecasts,
    _generate_pollutant_forecasts current_data weather_forecast days_ahead = Ok forecasts /\
    level_unchanged current_data forecasts "no2" 25 /\
    level_unchanged current_data forecasts "o3" 60 /\
    level_unchanged current_data forecasts "pm25" 20.
Proof.
  intros Hn Ho Hp Ht Hw Hh.
  destruct (field_numeric_get _ _ 25 Hn) as [no2 En].
  destruct (field_numeric_get _ _ 60 Ho) as [o3 Eo].
  destruct (field_numeric_get _ _ 20 Hp) as [pm25 Ep].
  destruct (field_within_get _ _ 20 _ _ Ht ltac:(lra)) as (t & Et & Ht').
  destruct (field_within_get _ _ 5 _ _ Hw ltac:(lra)) as (w & Ew & Hw').
  destruct (field_within_get _ _ 50 _ _ Hh ltac:(lra)) as (h & Eh & Hh').
  destruct (pollutant_forecasts_closed_form _ _ days_ahead _ _ _ _ _ _ En Eo Ep Et Ew Eh)
    as (f & Hf & F1 & F2 & F3).
  assert (t == 20)%Q by lra. assert (w == 5)%Q by lra. assert (h == 50)%Q by lra.
  exists f. split; [assumption |].
  repeat split; eexists _, _; (split; [eassumption |]; split; [eassumption |]);
    repeat match goal with H : (_ == _)%Q |- _ => rewrite H; clear H end; field.
Qed.

Lemma pollutant_forecasts_reference_weather_witness :
  exists forecasts,
    _generate_pollutant_forecasts {[ "no2" := PNum 31 ]} ∅ 4 = Ok forecasts /\
    level_unchanged {[ "no2" := PNum 31 ]} forecasts "no2" 25 /\
    level_unchanged {[ "no2" := PNum 31 ]} forecasts "o3" 60 /\
    level_unchanged {[ "no2" := PNum 31 ]} forecasts "pm25" 20.
Proof.
  apply (pollutant_forecasts_reference_weather {[ "no2" := PNum 31 ]} ∅ 4);
    vm_compute; try exact I; split; discriminate.
Defined.

(** For a positive PM2.5 baseline and a non-negative projected humidity,
    the projected PM2.5 level is negative exactly when the projected wind
    speed exceeds 30, and zero exactly at 30. *)
Theorem pollutant_forecasts_pm25_sign
    (current_data weather_forecast : dict) (days_ahead : Z) (base w h : Q) :
  get_default current_data "pm25" (PNum 20) = PNum base ->
  get_default weather_forecast "wind_speed" (PNum 5) = PNum w ->
  get_default weather_forecast "humidity" (PNum 50) = PNum h ->
  field_numeric current_data "no2" -> field_numeric current_data "o3" ->
  field_numeric weather_forecast "temperature" ->
  (0 < base)%Q -> (0 <= h)%Q ->
  exists forecasts level,
    _generate_pollutant_forecasts current_data weather_forecast days_ahead = Ok forecasts /\
    forecasts !! "pm25" = Some level /\
    ((level < 0)%Q <-> (30 < w)%Q) /\ ((level == 0)%Q <-> (w == 30)%Q).
Proof.
  intros Ep Ew Eh Hn Ho Ht Hbase Hh.
  destruct (field_numeric_get _ _ 25 Hn) as [no2 En].
  destruct (field_numeric_get _ _ 60 Ho) as [o3 Eo].
  destruct (field_numeric_get _ _ 20 Ht) as [t Et].
  destruct (pollutant_forecasts_closed_form _ _ days_ahead _ _ _ _ _ _ En Eo Ep Et Ew Eh)
    as (f & Hf & _ & _ & F3).
  eexists f, _. split; [assumption |]. split; [exact F3 |].
  set (a := (1 - (w / 5 - 1) * 0.2)%Q). set (b := (1 + (h / 50 - 1) * 0.1)%Q).
  assert (Ha : (a == (30 - w) * (1 # 25))%Q) by (unfold a; field).
  assert (Hb : (0 < b)%Q).
  { assert (b == 0.9 + h * (1 # 500))%Q as -> by (unfold b; field). lra. }
  assert (Hbb : (0 < base * b)%Q) by (apply Qmult_lt_0_compat; assumption).
  assert (Hprod : (base * a * b == (base * b) * a)%Q) by ring.
  rewrite Hprod. clear Hprod.
  set (c := (base * b)%Q) in *.
  split; split; intros H.
  - destruct (Qlt_le_dec 30 w) as [|Hle]; [assumption | exfalso].
    assert (0 <= a)%Q by lra.
    assert (0 <= c * a)%Q by (apply Qmult_le_0_compat; lra). lra.
  - assert (0 < - a)%Q by lra.
    assert (0 < c * - a)%Q by (apply Qmult_lt_0_compat; assumption).
    assert (c * - a == - (c * a))%Q by ring. lra.
  - assert (Hz : (a == 0)%Q).
    { destruct (Qmult_integral _ _ H) as [Hc | Ha0]; [lra | assumption]. }
    lra.
  - assert (Hz : (a == 0)%Q) by lra. rewrite Hz. ring.
Qed.

Lemma pollutant_forecasts_pm25_sign_witness :
  exists forecasts level,
    _generate_pollutant_forecasts ∅ {[ "wind_speed" := PNum 40 ]} 2 = Ok forecasts /\
    forecasts !! "pm25" = Some level /\
    ((level < 0)%Q <-> (30 < 40)%Q) /\ ((level == 0)%Q <-> (40 == 30)%Q).
Proof.
  apply (pollutant_forecasts_pm25_sign ∅ {[ "wind_speed" := PNum 40 ]} 2 20 40 50);
    try reflexivity; try exact I; try discriminate.
Defined.

(** *** Computed and default day-forecasts *)

Section DayForecasts.

Variable hash : string -> Z.
Variable clock : nat -> Z.

Lemma integer_field_get (weather : dict) (k : string) (lo hi : Z) (dflt : Q) :
  integer_field weather k lo hi ->
  exists z, get_default weather k (PNum dflt) = PNum (inject_Z z).
Proof. intros (z & Hz & _). exists z. unfold get_default. rewrite Hz. reflexivity. Qed.

Lemma calculate_trend_labels (current_data : dict) (forecast_aqi : Q) :
  field_numeric current_data "aqi" ->
  exists label, _calculate_trend current_data forecast_aqi = Ok label /\
                label ∈ ["worsening"; "improving"; "stable"].
Proof.
  intros H. destruct (field_numeric_get _ _ 3 H) as [q Eq].
  unfold _calculate_trend. rewrite Eq. simpl.
  destruct (Qltb _ _); [| destruct (Qltb _ _)]; eexists; (split; [reflexivity |]);
    set_solver.
Qed.

Lemma day_forecast_computed_run (days_ahead : Z) (current_data : dict) (n : nat) :
  numeric_current current_data ->
  exists (weather_forecast : dict) (forecast_aqi : Q) (forecasts : gmap string Q)
         (label : string),
    _get_weather_forecast hash days_ahead = Ok weather_forecast /\
    (1 <= forecast_aqi <= 5)%Q /\
    is_Some (forecasts !! "no2") /\ is_Some (forecasts !! "o3") /\
    is_Some (forecasts !! "pm25") /\
    label ∈ ["worsening"; "improving"; "stable"] /\
    _generate_day_forecast hash clock days_ahead current_data n
    = (Ok {| date := clock (S n) + days_ahead;
             aqi_value := forecast_aqi;
             no2_level := forecasts !! "no2";
             o3_level := forecasts !! "o3";
             pm25_level := forecasts !! "pm25";
             weather := weather_forecast;
             confidence := _calculate_confidence days_ahead;
             trend := label |}, S (S n)).
Proof.
  intros (Ha & Hn & Ho & Hp).
  destruct (mock_weather_forecast hash days_ahead)
    as (wf & c & Hwf & Ht & Hh & Hw & _).
  destruct (mock_weather_impact_value wf Ht Hh Hw) as (impact & Himpact & _).
  destruct (field_numeric_get _ _ 3 Ha) as [base Ea].
  destruct (field_numeric_get _ _ 25 Hn) as [no2 En].
  destruct (field_numeric_get _ _ 60 Ho) as [o3 Eo].
  destruct (field_numeric_get _ _ 20 Hp) as [pm25 Ep].
  destruct (integer_field_get _ _ _ _ 20 Ht) as [t Et].
  destruct (integer_field_get _ _ _ _ 5 Hw) as [w Ew].
  destruct (integer_field_get _ _ _ _ 50 Hh) as [h Eh].
  destruct (pollutant_forecasts_closed_form _ _ days_ahead _ _ _ _ _ _ En Eo Ep Et Ew Eh)
    as (f & Hf & F1 & F2 & F3).
  unfold _generate_day_forecast, Clock.try_except, _calculate_forecast_aqi,
    _calculate_seasonal_factor, Clock.bind, Clock.lift, Clock.today, Clock.ret.
  rewrite Hwf, Himpact, Ea. simpl. rewrite Hf.
  match goal with
  | |- context [_calculate_trend current_data ?a] =>
      destruct (calculate_trend_labels current_data a Ha) as (label & -> & Hlabel)
  end.
  eexists wf, _, f, label. split; [reflexivity |].
  split; [apply clamp_between; lra |].
  rewrite F1, F2, F3. repeat split; eauto.
Qed.

(** With current data whose index and pollutant levels are numbers (or
    missing), a day is always computed, never defaulted: it takes two
    clock readings, is dated by the second, carries the confidence of its
    day offset, a projected index in [1, 5], the built-in weather
    projection, all three pollutant levels and one of the three trend
    labels. *)
Theorem generate_day_forecast_computed (days_ahead : Z) (current_data : dict) (n : nat) :
  numeric_current current_data ->
  exists d,
    _generate_day_forecast hash clock days_ahead current_data n = (Ok d, S (S n)) /\
    date d = clock (S n) + days_ahead /\
    confidence d = _calculate_confidence days_ahead /\
    (1 <= aqi_value d <= 5)%Q /\
    _get_weather_forecast hash days_ahead = Ok (weather d) /\
    is_Some (no2_level d) /\ is_Some (o3_level d) /\ is_Some (pm25_level d) /\
    trend d ∈ ["worsening"; "improving"; "stable"].
Proof.
  intros Hnum.
  destruct (day_forecast_computed_run days_ahead current_data n Hnum)
    as (wf & a & f & label & Hwf & Ha & H1 & H2 & H3 & Hlabel & Hrun).
  eexists. split; [exact Hrun |]. simpl.
  repeat split; try assumption; apply Ha.
Qed.

Lemma pollutant_forecasts_need_numbers (current_data weather_forecast : dict)
    (days_ahead : Z) (forecasts : gmap string Q) :
  _generate_pollutant_forecasts current_data weather_forecast days_ahead = Ok forecasts ->
  Forall (fun '(k, dflt) => ~ not_a_number (get_default current_data k (PNum dflt)))
    [ ("no2", 25%Q); ("o3", 60%Q); ("pm25", 20%Q) ].
Proof.
  unfold _generate_pollutant_forecasts.
  destruct (Py.truediv _ 20) as [t|]; [| discriminate].
  destruct (Py.truediv _ 5) as [w|]; [| discriminate].
  destruct (Py.truediv _ 50) as [h|]; [| discriminate]. simpl.
  destruct (get_default current_data "no2" (PNum 25)) eqn:E1; simpl; try discriminate.
  destruct (get_default current_data "o3" (PNum 60)) eqn:E2; simpl; try discriminate.
  destruct (get_default current_data "pm25" (PNum 20)) eqn:E3; simpl; try discriminate.
  intros _. repeat constructor; [rewrite E1 | rewrite E2 | rewrite E3]; intros [].
Qed.

Lemma day_forecast_defaulted_run (days_ahead : Z) (current_data : dict) (n : nat) :
  current_ill_typed current_data ->
  exists n',
    (n <= n')%nat /\
    _generate_day_forecast hash clock days_ahead current_data n
    = _get_default_day_forecast clock days_ahead n'.
Proof.
  intros Hill.
  unfold _generate_day_forecast, Clock.try_except, _calculate_forecast_aqi,
    _calculate_seasonal_factor, Clock.bind, Clock.lift, Clock.today, Clock.ret.
  destruct (_get_weather_forecast hash days_ahead) as [wf|]; simpl;
    [| exists n; split; [lia | reflexivity]].
  destruct (_calculate_weather_impact wf) as [impact|]; simpl;
    [| exists n; split; [lia | reflexivity]].
  destruct (get_default current_data "aqi" (PNum 3)) as [|base|] eqn:Ea; simpl;
    try (exists (S n); split; [lia | reflexivity]).
  destruct (_generate_pollutant_forecasts current_data wf days_ahead) as [f|] eqn:Hf;
    simpl; [| exists (S n); split; [lia | reflexivity]].
  exfalso. apply pollutant_forecasts_need_numbers in Hf.
  unfold current_ill_typed, current_fields in Hill.
  apply Exists_cons in Hill as [Hill | Hill]; [rewrite Ea in Hill; exact Hill |].
  rewrite Forall_forall in Hf. apply Exists_exists in Hill as ([k dflt] & Hin & Hbad).
  exact (Hf (k, dflt) Hin Hbad).
Qed.

(** When the current data holds something that is not a number ([None]
    or a string) for the index or for one of the three pollutants, a day is
    never computed: the day-forecast is the default one (index 3, levels
    25, 60 and 20, confidence 0.5, trend stable), dated by the last clock
    reading taken. *)
Theorem generate_day_forecast_defaulted (days_ahead : Z) (current_data : dict) (n : nat) :
  current_ill_typed current_data ->
  exists d n',
    _generate_day_forecast hash clock days_ahead current_data n = (Ok d, S n') /\
    (n <= n')%nat /\
    date d = clock n' + days_ahead /\
    is_default_day d.
Proof.
  intros Hill.
  destruct (day_forecast_defaulted_run days_ahead current_data n Hill)
    as (n' & Hn' & ->).
  eexists _, n'. split; [reflexivity |].
  split; [assumption |]. repeat split.
Qed.

Lemma for_each_forall2 {A B : Type} (f : A -> Clock.io B) (P : A -> B -> Prop)
    (xs : list A) (n : nat) :
  (forall x m, exists y m', f x m = (Ok y, m') /\ P x y) ->
  exists ys n', Clock.for_each f xs n = (Ok ys, n') /\ Forall2 P xs ys.
Proof.
  intros Hf. revert n. induction xs as [|x xs IH]; intros n; simpl.
  - exists [], n. split; [reflexivity | constructor].
  - destruct (Hf x n) as (y & n1 & Hy & Hp).
    destruct (IH n1) as (ys & n2 & Hys & Hall).
    exists (y :: ys), n2. unfold Clock.bind. rewrite Hy, Hys.
    split; [reflexivity | constructor; assumption].
Qed.

Lemma forall2_fmap_eq {A B C : Type} (f : A -> C) (g : B -> C) (xs : list A)
    (ys : list B) :
  Forall2 (fun x y => g y = f x) xs ys -> g <$> ys = f <$> xs.
Proof.
  induction 1 as [|x y xs ys H _ IH]; [reflexivity |].
  rewrite !fmap_cons, H, IH. reflexivity.
Qed.

(** With numeric current data, or none at all (the fixed baseline is then
    used), the forecast holds seven computed days: their confidences are
    those of the day offsets 1 to 7 in order, and every projected index
    lies in [1, 5]. *)
Theorem generate_forecast_computed (current_data : option dict) (n : nat) :
  match current_data with
  | Some data => numeric_current data
  | None => True
  end ->
  exists forecast n',
    generate_forecast hash clock current_data n = (Ok forecast, n') /\
    confidence <$> forecast = _calculate_confidence <$> seqZ 1 7 /\
    Forall (fun d => (1 <= aqi_value d <= 5)%Q) forecast.
Proof.
  intros Hnum.
  unfold generate_forecast, Clock.try_except, Clock.bind.
  assert (Hstart : exists data n0,
    (match current_data with
     | Some data =>
         if dict_truthy current_data then Clock.ret data else _get_current_data clock
     | None => _get_current_data clock
     end) n = (Ok data, n0) /\ numeric_current data).
  { destruct current_data as [data|]; [destruct (dict_truthy (Some data)) |];
      eexists _, _; (split; [reflexivity |]); try assumption; repeat split. }
  destruct Hstart as (data & n0 & -> & Hdata).
  destruct (for_each_forall2 (fun i => _generate_day_forecast hash clock i data)
              (fun i d => confidence d = _calculate_confidence i /\
                          (1 <= aqi_value d <= 5)%Q)
              (seqZ 1 7) n0) as (ds & n' & -> & Hall).
  { intros i m.
    destruct (day_forecast_computed_run i data m Hdata)
      as (wf & a & f & label & _ & Ha & _ & _ & _ & _ & Hrun).
    eexists _, _. split; [exact Hrun |]. split; [reflexivity | exact Ha]. }
  exists ds, n'. split; [reflexivity |]. split.
  - apply forall2_fmap_eq. eapply Forall2_impl; [exact Hall |]. intros i d [Hc _]. exact Hc.
  - eapply Forall2_Forall_r; [exact Hall |].
    apply Forall_forall. intros i _ d [_ Ha]. exact Ha.
Qed.

Lemma not_a_number_dec (v : pyval) : {not_a_number v} + {~ not_a_number v}.
Proof. destruct v; simpl; auto. Qed.

(** The forecast that [get_air_quality] derives from the index it has just
    calculated has seven days, and it is all or nothing: if NO2, O3 and
    PM2.5 are all numbers in the index result, every day is computed (the
    confidences are those of the day offsets); if one of them is missing
    (or not a number), every day is the default one.  So a request with no
    PM2.5 reading gets the default forecast whatever else was measured. *)
Theorem air_quality_forecast_all_or_nothing
    (tempo_data ground_data weather_data : option dict) (n : nat) :
  let data := calculate_aqi tempo_data ground_data weather_data in
  let measured :=
    ~ not_a_number (no2 data) /\ ~ not_a_number (o3 data) /\
    ~ not_a_number (pm25 data) in
  exists forecast n',
    Main.air_quality_forecast hash clock tempo_data ground_data weather_data n
      = (Ok forecast, n') /\
    length forecast = 7%nat /\
    (measured -> confidence <$> forecast = _calculate_confidence <$> seqZ 1 7) /\
    (~ measured -> Forall is_default_day forecast).
Proof.
  cbv zeta. unfold Main.air_quality_forecast.
  set (data := calculate_aqi tempo_data ground_data weather_data).
  set (current := Main.current_data_of data).
  assert (Ea : current !! "aqi" = Some (PNum (inject_Z (aqi data)))) by reflexivity.
  assert (En : current !! "no2" = Some (no2 data)) by reflexivity.
  assert (Eo : current !! "o3" = Some (o3 data)) by reflexivity.
  assert (Ep : current !! "pm25" = Some (pm25 data)) by reflexivity.
  assert (Htruthy : dict_truthy (Some current) = true).
  { unfold current, Main.current_data_of. simpl. apply dict_truthy_insert. }
  destruct (not_a_number_dec (no2 data)) as [Hn | Hn];
    [| destruct (not_a_number_dec (o3 data)) as [Ho | Ho];
       [| destruct (not_a_number_dec (pm25 data)) as [Hp | Hp]]].
  4: { assert (Hnum : numeric_current current).
       { unfold numeric_current, field_numeric. rewrite Ea, En, Eo, Ep.
         destruct (no2 data), (o3 data), (pm25 data); simpl in *; tauto. }
       unfold generate_forecast, Clock.try_except, Clock.bind.
       rewrite Htruthy. unfold Clock.ret at 1.
       destruct (for_each_forall2 (fun i => _generate_day_forecast hash clock i current)
                   (fun i d => confidence d = _calculate_confidence i)
                   (seqZ 1 7) n) as (ds & n' & -> & Hall).
       { intros i m.
         destruct (day_forecast_computed_run i current m Hnum)
           as (wf & a & f & label & _ & _ & _ & _ & _ & _ & Hrun).
         eexists _, _. split; [exact Hrun | reflexivity]. }
       exists ds, n'. split; [reflexivity |].
       split; [apply Forall2_length in Hall; rewrite <- Hall; reflexivity |].
       split; [intros _; apply forall2_fmap_eq, Hall | tauto]. }
  all: assert (Hill : current_ill_typed current)
    by (unfold current_ill_typed, current_fields, get_default;
        rewrite !Exists_cons, En, Eo, Ep; simpl; tauto).
  all: unfold generate_forecast, Clock.try_except, Clock.bind;
    rewrite Htruthy; unfold Clock.ret at 1;
    destruct (for_each_forall2 (fun i => _generate_day_forecast hash clock i current)
                (fun _ d => is_default_day d) (seqZ 1 7) n) as (ds & n' & -> & Hall);
    [ intros i m;
      destruct (day_forecast_defaulted_run i current m Hill) as (m' & _ & ->);
      eexists _, _; split; [reflexivity | repeat split]
    | exists ds, n'; split; [reflexivity |];
      split; [apply Forall2_length in Hall; rewrite <- Hall; reflexivity |];
      split; [tauto |]; intros _;
      eapply Forall2_Forall_r; [exact Hall |];
      apply Forall_forall; intros i _ d Hd; exact Hd ].
Qed.

End DayForecasts.

Lemma generate_day_forecast_computed_witness :
  exists d,
    _generate_day_forecast (fun _ => 4) (fun _ => 739923) 2 ∅ 0%nat = (Ok d, 2%nat) /\
    date d = 739923 + 2 /\
    confidence d = _calculate_confidence 2 /\
    (1 <= aqi_value d <= 5)%Q /\
    _get_weather_forecast (fun _ => 4) 2 = Ok (weather d) /\
    is_Some (no2_level d) /\ is_Some (o3_level d) /\ is_Some (pm25_level d) /\
    trend d ∈ ["worsening"; "improving"; "stable"].
Proof.
  apply (generate_day_forecast_computed (fun _ => 4) (fun _ => 739923) 2 ∅ 0%nat).
  repeat split.
Defined.


Lemma generate_day_forecast_defaulted_witness :
  exists d n',
    _generate_day_forecast (fun _ => 4) (fun _ => 739923) 2 {[ "pm25" := PNone ]} 0%nat
      = (Ok d, S n') /\
    (0 <= n')%nat /\
    date d = 739923 + 2 /\
    is_default_day d.
Proof.
  apply (generate_day_forecast_defaulted (fun _ => 4) (fun _ => 739923) 2
           {[ "pm25" := PNone ]} 0%nat).
  unfold current_ill_typed, current_fields. rewrite !Exists_cons.
  right. right. right. left. exact I.
Defined.

Lemma generate_forecast_computed_witness :
  exists forecast n',
    generate_forecast (fun _ => 4) (fun _ => 739923) None 0%nat = (Ok forecast, n') /\
    confidence <$> forecast = _calculate_confidence <$> seqZ 1 7 /\
    Forall (fun d => (1 <= aqi_value d <= 5)%Q) forecast.
Proof.
  apply (generate_forecast_computed (fun _ => 4) (fun _ => 739923) None 0%nat).
  exact I.
Defined.

(** ** Properties of the TEMPO client *)

Import TempoClient.

(** For a non-negative number of days ago the historical variation never
    leaves [-r, r] with r = min(2, days_ago // 3 + 1): at most one step for
    the last two days, at most two steps ever. *)
Theorem generate_historical_variation_range (hash : string -> Z) (days_ago : Z) :
  0 <= days_ago ->
  let r := Z.min 2 (days_ago / 3 + 1) in
  - r <= _generate_historical_variation hash days_ago <= r /\ 1 <= r <= 2.
Proof.
  intros Hd. cbv zeta. unfold _generate_historical_variation.
  pose proof (Z.div_pos days_ago 3 Hd ltac:(lia)).
  set (r := Z.min 2 (days_ago / 3 + 1)).
  assert (1 <= r <= 2) by (unfold r; lia).
  pose proof (Z.mod_pos_bound (hash (str days_ago)) (r * 2 + 1) ltac:(lia)).
  lia.
Qed.

Lemma generate_historical_variation_range_witness :
  let r := Z.min 2 (2 / 3 + 1) in
  - r <= _generate_historical_variation (fun _ => 5) 2 <= r /\ 1 <= r <= 2.
Proof. apply (generate_historical_variation_range (fun _ => 5) 2). lia. Defined.

Section History.

Variable hash : string -> Z.
Variable float_str : Q -> string.
Variable clock : nat -> Z.










End History.
